(** * Stock price predictor: the data-preparation, training and prediction
    pipeline of [src/predictor.jsx], embedded as state-passing functions.

    Numbers are exact rationals ([Q]): the development speaks about the
    arithmetic of the pipeline "absent rounding".  The React state of the
    component and the part of the browser the handlers touch (alert boxes,
    the IndexedDB entry, the random source, the clock) live in one record,
    [World]; what the host decides for the program (whether TensorFlow.js
    loads, what the engine answers, the time zone) is the read-only record
    [Env].  An [async] handler is a function [World -> outcome A * World]. *)

From Stdlib Require Import ZArith QArith Qminmax String List Bool Lia Lqa.
Import ListNotations.

Local Open Scope Z_scope.

(** ** JavaScript built-ins used by the component *)

Module Js.

(** The relative index of [Array.prototype.slice]: negative arguments
    count from the end, everything is clamped to [0 .. len]. *)
Definition slice_index (len k : Z) : Z :=
  if k <? 0 then Z.max (len + k) 0 else Z.min k len.

(** [arr.slice(start, end)] *)
Definition slice {A : Type} (arr : list A) (start end_ : Z) : list A :=
  let len := Z.of_nat (length arr) in
  let k := slice_index len start in
  let final := slice_index len end_ in
  firstn (Z.to_nat (final - k)) (skipn (Z.to_nat k) arr).

(** [arr.slice(start)] *)
Definition slice_from {A : Type} (arr : list A) (start : Z) : list A :=
  slice arr start (Z.of_nat (length arr)).

(** [arr[i]]: [None] stands for [undefined]. *)
Definition index {A : Type} (arr : list A) (i : Z) : option A :=
  if i <? 0 then None else nth_error arr (Z.to_nat i).

(** [Math.min(...arr)] and [Math.max(...arr)].  On no argument JavaScript
    answers [Infinity] and [-Infinity], which the rationals lack; every
    caller in the component has checked [data.length] before, and the
    model answers [0] there. *)
Definition Math_min (arr : list Q) : Q :=
  match arr with
  | [] => 0%Q
  | x :: rest => fold_left Qmin rest x
  end.

Definition Math_max (arr : list Q) : Q :=
  match arr with
  | [] => 0%Q
  | x :: rest => fold_left Qmax rest x
  end.

(** [a || b] on numbers: [b] when [a] is zero. *)
Definition num_or (a b : Q) : Q := if Qeq_bool a 0 then b else a.

(** [a || b] on integers. *)
Definition int_or (a b : Z) : Z := if a =? 0 then b else a.

(** An [Error] object, and the text [err?.message || err] puts in a
    message: the [message], or the rendering of the object when the
    message is empty. *)
Record Error : Type := mkError { message : string }.

Definition error_text (err : Error) : string :=
  if String.eqb (message err) EmptyString then "Error"%string else message err.

(** Milliseconds in a day, as in the language's time values. *)
Definition msPerDay : Z := 86400000.

End Js.

(** ** Data model *)

(** A calendar date ['YYYY-MM-DD'] is kept as its day number (days since
    1970-01-01); consecutive calendar days are consecutive integers. *)
Definition Day := Z.

Record PricePoint : Type := mkPoint { date : Day; close : Q }.

Record LstmParams : Type := mkParams {
  lookback : Z;
  units : Z;
  epochs : Z;
  batchSize : Z;
  lr : Q
}.

(** A model built by the engine is an opaque handle. *)
Definition TfModel := nat.

(** What the [model] state variable holds: the marker object
    [{ mock: true, createdAt }] or a model of the engine. *)
Inductive ModelHandle : Type :=
| MockModel (createdAt : Z)
| TrainedModel (m : TfModel).

Definition is_mock (h : ModelHandle) : bool :=
  match h with MockModel _ => true | TrainedModel _ => false end.

(** How a call ends: with a value, or by throwing. *)
Inductive outcome (A : Type) : Type :=
| Ret (a : A)
| Throw (err : Js.Error).
Arguments Ret {A} a.
Arguments Throw {A} err.

(** What the host decides.  The engine is the TensorFlow.js module: the
    component only calls it, so its answers are left open here. *)
Record Env : Type := mkEnv {
  (** [typeof indexedDB !== 'undefined' && indexedDB !== null] *)
  hasIndexedDB : bool;
  (** [await import('@tensorflow/tfjs')] followed by [tf.ready()] *)
  tf_import : outcome unit;
  (** [tf.tensor2d(xs).reshape(...)] and [tf.tensor2d(ys, ...)] *)
  tf_tensors : list (list Q) -> list (option Q) -> Z -> outcome unit;
  (** [tf.sequential()], the two [add] and [compile] *)
  tf_build : LstmParams -> outcome TfModel;
  (** [model.fit]: the losses of the epochs it completed, and how it ended *)
  tf_fit : TfModel -> list (list Q) -> list (option Q) -> LstmParams ->
           list Q * outcome unit;
  (** [model.save('indexeddb://lstm-stock-model')] *)
  tf_save : TfModel -> outcome unit;
  (** [tf.io.removeModel('indexeddb://lstm-stock-model')] *)
  tf_removeModel : outcome unit;
  (** [tf.tensor2d([inputSeq]).reshape([1, lookback, 1])] *)
  tf_input : Z -> list Q -> outcome unit;
  (** [model.predict(input)] and the first entry of the answer's data *)
  tf_predict : TfModel -> list Q -> outcome Q;
  Math_exp : Q -> Q;
  Math_sin : Q -> Q;
  (** the successive answers of [Math.random()], each in [0, 1) *)
  Math_random : nat -> Q;
  (** the host's offset from UTC in milliseconds, at a UTC time value
      ([true]) or at a local one ([false]) *)
  LocalTZA : Z -> bool -> Z
}.

(** The state of the component and of the browser around it. *)
Record World : Type := mkWorld {
  data : list PricePoint;
  predictions : list PricePoint;
  lstmParams : LstmParams;
  training : bool;
  lossHistory : list Q;
  tfAvailable : bool;
  model : option ModelHandle;
  persistedModel : bool;
  mockMode : bool;
  (** the texts shown by [alert], oldest first *)
  alerts : list string;
  (** what IndexedDB holds under ['lstm-stock-model'] *)
  idbEntry : option TfModel;
  (** how many times [Math.random] was called *)
  randomCalls : nat;
  (** [Date.now()] *)
  clock : Z;
  (** the input windows handed to the engine's [predict], oldest first *)
  predictCalls : list (list Q)
}.

(** *** State setters *)

Definition setPredictions (v : list PricePoint) (w : World) : World :=
  mkWorld (data w) v (lstmParams w) (training w) (lossHistory w)
          (tfAvailable w) (model w) (persistedModel w) (mockMode w)
          (alerts w) (idbEntry w) (randomCalls w) (clock w) (predictCalls w).

Definition setTraining (v : bool) (w : World) : World :=
  mkWorld (data w) (predictions w) (lstmParams w) v (lossHistory w)
          (tfAvailable w) (model w) (persistedModel w) (mockMode w)
          (alerts w) (idbEntry w) (randomCalls w) (clock w) (predictCalls w).

Definition setLossHistory (v : list Q) (w : World) : World :=
  mkWorld (data w) (predictions w) (lstmParams w) (training w) v
          (tfAvailable w) (model w) (persistedModel w) (mockMode w)
          (alerts w) (idbEntry w) (randomCalls w) (clock w) (predictCalls w).

Definition setTfAvailable (v : bool) (w : World) : World :=
  mkWorld (data w) (predictions w) (lstmParams w) (training w) (lossHistory w)
          v (model w) (persistedModel w) (mockMode w)
          (alerts w) (idbEntry w) (randomCalls w) (clock w) (predictCalls w).

Definition setModel (v : option ModelHandle) (w : World) : World :=
  mkWorld (data w) (predictions w) (lstmParams w) (training w) (lossHistory w)
          (tfAvailable w) v (persistedModel w) (mockMode w)
          (alerts w) (idbEntry w) (randomCalls w) (clock w) (predictCalls w).

Definition setPersistedModel (v : bool) (w : World) : World :=
  mkWorld (data w) (predictions w) (lstmParams w) (training w) (lossHistory w)
          (tfAvailable w) (model w) v (mockMode w)
          (alerts w) (idbEntry w) (randomCalls w) (clock w) (predictCalls w).

Definition setMockMode (v : bool) (w : World) : World :=
  mkWorld (data w) (predictions w) (lstmParams w) (training w) (lossHistory w)
          (tfAvailable w) (model w) (persistedModel w) v
          (alerts w) (idbEntry w) (randomCalls w) (clock w) (predictCalls w).

(** [alert(text)] *)
Definition alert (text : string) (w : World) : World :=
  mkWorld (data w) (predictions w) (lstmParams w) (training w) (lossHistory w)
          (tfAvailable w) (model w) (persistedModel w) (mockMode w)
          (alerts w ++ [text]) (idbEntry w) (randomCalls w) (clock w)
          (predictCalls w).

Definition setIdbEntry (v : option TfModel) (w : World) : World :=
  mkWorld (data w) (predictions w) (lstmParams w) (training w) (lossHistory w)
          (tfAvailable w) (model w) (persistedModel w) (mockMode w)
          (alerts w) v (randomCalls w) (clock w) (predictCalls w).

(** [Math.random()]: the next answer of the source. *)
Definition random (env : Env) (w : World) : Q * World :=
  (Math_random env (randomCalls w),
   mkWorld (data w) (predictions w) (lstmParams w) (training w) (lossHistory w)
           (tfAvailable w) (model w) (persistedModel w) (mockMode w)
           (alerts w) (idbEntry w) (S (randomCalls w)) (clock w)
           (predictCalls w)).

Definition logPredict (input : list Q) (w : World) : World :=
  mkWorld (data w) (predictions w) (lstmParams w) (training w) (lossHistory w)
          (tfAvailable w) (model w) (persistedModel w) (mockMode w)
          (alerts w) (idbEntry w) (randomCalls w) (clock w)
          (predictCalls w ++ [input]).

(** ** Handlers as computations over the world *)

Definition M (A : Type) : Type := World -> outcome A * World.

Definition ret {A : Type} (a : A) : M A := fun w => (Ret a, w).

Definition throw {A : Type} (err : Js.Error) : M A := fun w => (Throw err, w).

Definition bind {A B : Type} (c : M A) (k : A -> M B) : M B :=
  fun w =>
    match c w with
    | (Ret a, w1) => k a w1
    | (Throw err, w1) => (Throw err, w1)
    end.

(** A statement that only changes the world. *)
Definition exec (f : World -> World) : M unit := fun w => (Ret tt, f w).

(** Reading the world. *)
Definition gets {A : Type} (f : World -> A) : M A := fun w => (Ret (f w), w).

(** A call whose ending the host decides. *)
Definition host {A : Type} (r : outcome A) : M A := fun w => (r, w).

(** [try { body } catch (err) { handler }] *)
Definition try_catch {A : Type} (body : M A) (handler : Js.Error -> M A) : M A :=
  fun w =>
    match body w with
    | (Ret a, w1) => (Ret a, w1)
    | (Throw err, w1) => handler err w1
    end.

(** [try { body } finally { final }], for a [final] that cannot throw. *)
Definition try_finally {A : Type} (body : M A) (final : World -> World) : M A :=
  fun w => let (r, w1) := body w in (r, final w1).

Declare Scope js_scope.
Delimit Scope js_scope with js.
Notation "x <- c ;; k" := (bind c (fun x => k))
  (at level 61, c at next level, right associativity) : js_scope.
Notation "c ;; k" := (bind c (fun _ => k))
  (at level 61, right associativity) : js_scope.
Local Open Scope js_scope.

(** The world a handler leaves, and how it ended. *)
Definition world_after {A : Type} (c : M A) (w : World) : World := snd (c w).
Definition ending {A : Type} (c : M A) (w : World) : outcome A := fst (c w).

(** ** Series normalizer *)

Record Normalized : Type := mkNormalized { norm : list Q; min : Q; max : Q }.

(** The body of [normalize], with the division it performs as a
    parameter: [div a b] stands for [a / b], so that a statement can tell
    by what the code divides. *)
Definition normalize_with (div : Q -> Q -> Q) (arr : list Q) : Normalized :=
  let min := Js.Math_min arr in
  let max := Js.Math_max arr in
  let range := Js.num_or (max - min) 1 in
  mkNormalized (map (fun v => div (v - min) range)%Q arr) min max.

Definition normalize (arr : list Q) : Normalized := normalize_with Qdiv arr.

Definition denormalize (arr : list Q) (min max : Q) : list Q :=
  let range := Js.num_or (max - min) 1 in
  map (fun v => v * range + min)%Q arr.

(** ** Dates of a forecast *)

(** [new Date('YYYY-MM-DD')]: midnight UTC of that day. *)
Definition Date_of_day (d : Day) : Z := d * Js.msPerDay.

(** [d.setDate(d.getDate() + k)]: the time value is taken to local time,
    the day of the month is moved by [k] (the calendar carries into the
    next months), the local time of day is kept, and the result is taken
    back to UTC with the offset in force at the new local time. *)
Definition Date_addDate (env : Env) (t k : Z) : Z :=
  let local := t + LocalTZA env t true in
  let moved := local + k * Js.msPerDay in
  moved - LocalTZA env moved false.

(** [d.toISOString().slice(0, 10)]: the UTC calendar day of a time value. *)
Definition Date_isoDay (t : Z) : Day := t / Js.msPerDay.

(** [Array.from({ length: horizon }, (_, i) => ...)] of both predictors. *)
Definition futureDates (env : Env) (lastDate : Day) (horizon : Z) : list Day :=
  map (fun i => Date_isoDay (Date_addDate env (Date_of_day lastDate) (i + 1)))
      (map Z.of_nat (seq 0 (Z.to_nat horizon))).

(** [futureDates.map((date, i) => ({ date, close: preds[i] }))]; both
    arrays have one entry per step of the horizon. *)
Definition forecast_points (dates : list Day) (closes : list Q) : list PricePoint :=
  map (fun dc => mkPoint (fst dc) (snd dc)) (combine dates closes).

(** [data[data.length - 1]], whose fields are read at once: on an empty
    array the read throws. *)
Definition last_point (d : list PricePoint) : outcome PricePoint :=
  match Js.index d (Z.of_nat (length d) - 1) with
  | Some p => Ret p
  | None => Throw (Js.mkError "Cannot read properties of undefined")
  end.

(** ** Mode selector *)

Definition indexedDBAvailable (env : Env) : bool := hasIndexedDB env.

(** [tf.loadLayersModel('indexeddb://lstm-stock-model')] *)
Definition tf_loadLayersModel : M TfModel :=
  fun w =>
    match idbEntry w with
    | Some m => (Ret m, w)
    | None => (Throw (Js.mkError "Cannot find model in IndexedDB"), w)
    end.

Definition enableTensorFlow (env : Env) : M unit :=
  try_catch
    (host (tf_import env) ;;
     exec (setTfAvailable true) ;;
     exec (setMockMode false) ;;
     (if indexedDBAvailable env then
        try_catch
          (stored <- tf_loadLayersModel ;;
           exec (setModel (Some (TrainedModel stored))) ;;
           exec (setPersistedModel true))
          (fun _ => ret tt)
      else ret tt) ;;
     exec (alert "TensorFlow.js loaded. Mock mode disabled."))
    (fun _ =>
       exec (alert "Unable to load TensorFlow.js in this environment. Continuing in mock mode.") ;;
       exec (setTfAvailable false) ;;
       exec (setMockMode true)).

(** ** Mock engine *)

(** The loss synthesized for epoch [e], from the random draw [r]. *)
Definition mock_loss (env : Env) (epochs e : Z) (r : Q) : Q :=
  (Math_exp env (- inject_Z e / (inject_Z epochs / 5)) + r * 0.05)%Q.

(** The [for] loop of [mockTrain], with [todo] rounds left. *)
Fixpoint mockTrain_loop (env : Env) (epochs : Z) (todo : nat) (e : Z)
         (lossArr : list Q) (w : World) : list Q * World :=
  match todo with
  | O => (lossArr, w)
  | S todo' =>
      let (r, w1) := random env w in
      let lossArr' := lossArr ++ [mock_loss env epochs e r] in
      mockTrain_loop env epochs todo' (e + 1) lossArr' (setLossHistory lossArr' w1)
  end.

(** [Number(lstmParams.epochs || 10)] *)
Definition mock_epochs (w : World) : Z := Js.int_or (epochs (lstmParams w)) 10.

(** The world when [mockTrain] has started and run [k] epochs. *)
Definition mockTrain_progress (env : Env) (k : nat) (w : World) : list Q * World :=
  mockTrain_loop env (mock_epochs w) k 0 [] (setLossHistory [] (setTraining true w)).

Definition mockTrain (env : Env) : M unit :=
  fun w =>
    let (_, w1) := mockTrain_progress env (Z.to_nat (mock_epochs w)) w in
    (now <- gets clock ;;
     exec (setModel (Some (MockModel now))) ;;
     exec (setPersistedModel false) ;;
     exec (setTraining false) ;;
     exec (alert "Mock training complete (TF not required).")) w1.

(** The price synthesized for step [i], from the random draw [r]. *)
Definition mock_price (env : Env) (last : Q) (i : Z) (r : Q) : Q :=
  (last + (Math_sin env (inject_Z i) + r * 0.5) * (last * 0.01))%Q.

(** The [for] loop of [mockPredict], with [todo] rounds left. *)
Fixpoint mockPredict_loop (env : Env) (last : Q) (todo : nat) (i : Z)
         (preds : list Q) (w : World) : list Q * World :=
  match todo with
  | O => (preds, w)
  | S todo' =>
      let (r, w1) := random env w in
      mockPredict_loop env last todo' (i + 1) (preds ++ [mock_price env last i r]) w1
  end.

Definition mockPredict (env : Env) (horizon : Z) : M unit :=
  fun w =>
    if (length (data w) =? 0)%nat then (Ret tt, w)
    else
      (lastPoint <- host (last_point (data w)) ;;
       preds <- (fun w1 =>
                   let (preds, w2) :=
                     mockPredict_loop env (close lastPoint) (Z.to_nat horizon) 1 [] w1 in
                   (Ret preds, w2)) ;;
       exec (setPredictions
               (forecast_points (futureDates env (date lastPoint) horizon) preds)) ;;
       exec (alert "Mock predictions generated.")) w.

(** ** Windowing *)

(** The [for] loop that fills [xs] and [ys], with [todo] rounds left. *)
Fixpoint windows_loop (norm : list Q) (lookback : Z) (todo : nat) (i : Z)
         (xs : list (list Q)) (ys : list (option Q))
  : list (list Q) * list (option Q) :=
  match todo with
  | O => (xs, ys)
  | S todo' =>
      windows_loop norm lookback todo' (i + 1)
                   (xs ++ [Js.slice norm i (i + lookback)])
                   (ys ++ [Js.index norm (i + lookback)])
  end.

(** [for (let i = 0; i < norm.length - lookback; i++)] *)
Definition build_windows (norm : list Q) (lookback : Z)
  : list (list Q) * list (option Q) :=
  windows_loop norm lookback (Z.to_nat (Z.of_nat (length norm) - lookback)) 0 [] [].

(** ** Live training *)

(** The [onEpochEnd] callbacks of one [fit]: each completed epoch pushes
    its loss and publishes a copy of the trace. *)
Fixpoint onEpochEnd_all (losses lossArr : list Q) (w : World) : list Q * World :=
  match losses with
  | [] => (lossArr, w)
  | loss :: rest =>
      let lossArr' := lossArr ++ [loss] in
      onEpochEnd_all rest lossArr' (setLossHistory lossArr' w)
  end.

Definition fit (env : Env) (m : TfModel) (xs : list (list Q)) (ys : list (option Q))
           (p : LstmParams) : M unit :=
  fun w =>
    let (losses, final) := tf_fit env m xs ys p in
    let (_, w1) := onEpochEnd_all losses [] w in
    (final, w1).

(** The body of the [try] block of [trainLSTM]; [w0] is the state the
    handler closed over. *)
Definition liveTrain_body (env : Env) (w0 : World) : M unit :=
  host (tf_import env) ;;
  let closes := map close (data w0) in
  let n := normalize closes in
  let lookback := lookback (lstmParams w0) in
  let (xs, ys) := build_windows (norm n) lookback in
  (if (length xs =? 0)%nat
   then throw (Js.mkError "Not enough data for the chosen lookback.")
   else ret tt) ;;
  host (tf_tensors env xs ys lookback) ;;
  lstmModel <- host (tf_build env (lstmParams w0)) ;;
  fit env lstmModel xs ys (lstmParams w0) ;;
  (if indexedDBAvailable env then
     try_catch
       (host (tf_save env lstmModel) ;;
        exec (setIdbEntry (Some lstmModel)) ;;
        exec (setPersistedModel true))
       (fun _ => ret tt)
   else ret tt) ;;
  exec (setModel (Some (TrainedModel lstmModel))) ;;
  exec (alert "Training complete (real TF).").

(** The real path of [trainLSTM], from [setTraining(true)] on. *)
Definition liveTrain (env : Env) : M unit :=
  fun w0 =>
    (exec (setTraining true) ;;
     exec (setLossHistory []) ;;
     try_finally
       (try_catch
          (liveTrain_body env w0)
          (fun err => exec (alert ("Training failed: " ++ Js.error_text err))))
       (setTraining false)) w0.

Definition trainLSTM (env : Env) : M unit :=
  fun w =>
    if (length (data w) =? 0)%nat then exec (alert "Fetch data first.") w
    else if mockMode w || negb (tfAvailable w) then mockTrain env w
    else liveTrain env w.

(** ** Live prediction *)

(** The engine calls of one pass of the rollout loop.  The marker object
    of mock training has no [predict]: calling it throws. *)
Definition predict_step (env : Env) (useModel : ModelHandle) (lookback : Z)
           (inputSeq : list Q) : M Q :=
  host (tf_input env lookback inputSeq) ;;
  match useModel with
  | TrainedModel m =>
      exec (logPredict inputSeq) ;;
      host (tf_predict env m inputSeq)
  | MockModel _ => throw (Js.mkError "useModel.predict is not a function")
  end.

(** The rollout loop, with [todo] rounds left. *)
Fixpoint rollout_loop (env : Env) (useModel : ModelHandle) (lookback : Z)
         (todo : nat) (inputSeq preds : list Q) : M (list Q) :=
  match todo with
  | O => ret preds
  | S todo' =>
      val <- predict_step env useModel lookback inputSeq ;;
      rollout_loop env useModel lookback todo'
                   (Js.slice_from inputSeq 1 ++ [val]) (preds ++ [val])
  end.

(** "Ensure model is present": the model in memory, else the persisted one;
    [None] is the handler returning without a forecast. *)
Definition resolve_model (env : Env) (w0 : World) : M (option ModelHandle) :=
  match model w0 with
  | Some held => ret (Some held)
  | None =>
      if indexedDBAvailable env then
        try_catch
          (stored <- tf_loadLayersModel ;;
           exec (setModel (Some (TrainedModel stored))) ;;
           exec (setPersistedModel true) ;;
           ret (Some (TrainedModel stored)))
          (fun _ => ret None)
      else ret None
  end.

(** From [const closes = ...] to [setPredictions]. *)
Definition rollout (env : Env) (useModel : ModelHandle) (horizon : Z)
           (w0 : World) : M unit :=
  let closes := map close (data w0) in
  let n := normalize closes in
  let inputSeq := Js.slice_from (norm n) (- lookback (lstmParams w0)) in
  preds <- rollout_loop env useModel (lookback (lstmParams w0))
                        (Z.to_nat horizon) inputSeq [] ;;
  let denormPreds := denormalize preds (min n) (max n) in
  lastPoint <- host (last_point (data w0)) ;;
  exec (setPredictions
          (forecast_points (futureDates env (date lastPoint) horizon) denormPreds)).

(** The real path of [predictLSTM]. *)
Definition livePredict (env : Env) (horizon : Z) : M unit :=
  fun w0 =>
    try_catch
      (host (tf_import env) ;;
       useModel <- resolve_model env w0 ;;
       match useModel with
       | Some h => rollout env h horizon w0
       | None => ret tt
       end)
      (fun err => exec (alert ("Prediction failed: " ++ Js.error_text err))) w0.

Definition predictLSTM (env : Env) (horizon : Z) : M unit :=
  fun w =>
    if (length (data w) =? 0)%nat then (Ret tt, w)
    else if mockMode w || negb (tfAvailable w) then mockPredict env horizon w
    else livePredict env horizon w.

(** ** Model lifecycle *)

Definition deletePersistedModel (env : Env) : M unit :=
  fun w =>
    if negb (indexedDBAvailable env)
    then exec (alert "IndexedDB not available in this environment.") w
    else if mockMode w
    then exec (alert "No persisted real model when in mock mode.") w
    else
      try_catch
        (host (tf_import env) ;;
         host (tf_removeModel env) ;;
         exec (setIdbEntry None) ;;
         exec (setPersistedModel false) ;;
         exec (setModel None) ;;
         exec (alert "Persisted model deleted."))
        (fun err =>
           exec (alert ("Failed to delete persisted model: " ++ Js.error_text err))) w.

(** ** Concrete hosts and states *)

(** [useState({ lookback: 20, units: 50, epochs: 30, batchSize: 8, lr: 0.001 })] *)
Definition default_params : LstmParams := mkParams 20 50 30 8 0.001.

(** The state of the component when it mounts, at time [now]. *)
Definition initial_world (now : Z) : World :=
  mkWorld [] [] default_params false [] false None false true [] None 0%nat now [].

(** [setData(parsed)] of the fetch handler. *)
Definition setData (v : list PricePoint) (w : World) : World :=
  mkWorld v (predictions w) (lstmParams w) (training w) (lossHistory w)
          (tfAvailable w) (model w) (persistedModel w) (mockMode w)
          (alerts w) (idbEntry w) (randomCalls w) (clock w) (predictCalls w).

Definition setLstmParams (v : LstmParams) (w : World) : World :=
  mkWorld (data w) (predictions w) v (training w) (lossHistory w)
          (tfAvailable w) (model w) (persistedModel w) (mockMode w)
          (alerts w) (idbEntry w) (randomCalls w) (clock w) (predictCalls w).

(** Stand-ins for [Math.exp], [Math.sin] and the random source on the
    sample hosts; the draws cycle through [0, 1/8, ..., 6/8]. *)
Definition sample_exp (x : Q) : Q := (1 / (1 - x))%Q.
Definition sample_sin (x : Q) : Q := (x / 2)%Q.
Definition sample_random (k : nat) : Q := (Z.of_nat k mod 7) # 8.

(** A host on which the engine, once loaded, builds model [7], reshapes a
    window only when it has [lookback] values, and predicts the mean of the
    first and last input of a window; what varies is whether IndexedDB
    exists, how loading the engine ends, what [fit] reports and the time
    zone. *)
Definition sample_host (idb : bool) (loading : outcome unit)
           (fitting : list Q * outcome unit) (tza : Z -> bool -> Z) : Env :=
  mkEnv idb loading
        (fun _ _ _ => Ret tt)
        (fun _ => Ret 7%nat)
        (fun _ _ _ _ => fitting)
        (fun _ => Ret tt)
        (Ret tt)
        (fun lookback input =>
           if Z.of_nat (length input) =? lookback then Ret tt
           else Throw (Js.mkError "Size must match the product of shape"))
        (fun _ input => Ret ((hd 0 input + last input 0) / 2)%Q)
        sample_exp sample_sin sample_random
        tza.

(** A host at a fixed offset from UTC where everything works; training
    reports two epochs. *)
Definition fixed_host (offset : Z) : Env :=
  sample_host true (Ret tt) ([0.5; 0.25]%Q, Ret tt) (fun _ _ => offset).

(** A host without the engine and without IndexedDB. *)
Definition bare_host : Env :=
  sample_host false (Throw (Js.mkError "Failed to fetch dynamically imported module"))
              ([], Ret tt) (fun _ _ => 0).

(** A host with the engine but without IndexedDB. *)
Definition private_host : Env :=
  sample_host false (Ret tt) ([0.5; 0.25]%Q, Ret tt) (fun _ _ => 0).

(** A host on which [fit] gives up after one epoch. *)
Definition diverging_host : Env :=
  sample_host true (Ret tt) ([0.5]%Q, Throw (Js.mkError "loss is NaN")) (fun _ _ => 0).

(** Central European time around the start of summer time in 2024: the
    offset is one hour until 2024-03-31 01:00 UTC (02:00 local time) and two
    hours from then on.  2024-03-31 is day 19813. *)
Definition berlin_LocalTZA (t : Z) (isUTC : bool) : Z :=
  let change := 19813 * Js.msPerDay + (if isUTC then 3600000 else 7200000) in
  if t <? change then 3600000 else 7200000.

Definition berlin_host : Env :=
  sample_host true (Ret tt) ([0.5; 0.25]%Q, Ret tt) berlin_LocalTZA.

(** Three closes ending on Thursday 2024-03-28 (day 19810). *)
Definition march_data : list PricePoint :=
  [mkPoint 19808 100%Q; mkPoint 19809 104%Q; mkPoint 19810 102%Q].

(** The component with the march closes fetched, still in mock mode. *)
Definition march_world : World := setData march_data (initial_world 0).

(** The same with the engine enabled and no model held. *)
Definition march_live_world : World := setMockMode false (setTfAvailable true march_world).

(** The same holding the trained model [7]. *)
Definition march_trained_world : World := setModel (Some (TrainedModel 7%nat)) march_live_world.

(** The same with a lookback of two days. *)
Definition march_ready_world : World :=
  setLstmParams (mkParams 2 50 30 8 0.001) march_trained_world.

(** ** Descriptions used in the statements *)

(** The world with another loss trace and another count of random draws. *)
Definition with_trace (w : World) (trace : list Q) (draws : nat) : World :=
  mkWorld (data w) (predictions w) (lstmParams w) (training w) trace
          (tfAvailable w) (model w) (persistedModel w) (mockMode w)
          (alerts w) (idbEntry w) draws (clock w) (predictCalls w).

(** The losses of [n] epochs from epoch [e] on, drawn from position [d]. *)
Definition mock_losses (env : Env) (E e : Z) (d n : nat) : list Q :=
  map (fun k => mock_loss env E (e + Z.of_nat k) (Math_random env (d + k))) (seq 0 n).

(** The world with another log of engine calls. *)
Definition with_calls (w : World) (calls : list (list Q)) : World :=
  mkWorld (data w) (predictions w) (lstmParams w) (training w) (lossHistory w)
          (tfAvailable w) (model w) (persistedModel w) (mockMode w)
          (alerts w) (idbEntry w) (randomCalls w) (clock w) calls.

(** The value the engine answers on a window (of no use when it throws). *)
Definition answer (env : Env) (m : TfModel) (window : list Q) : Q :=
  match tf_predict env m window with
  | Ret v => v
  | Throw _ => 0%Q
  end.

(** The windows of [n] rollout steps from [window] on: each next window
    drops the oldest value and takes the engine's answer at the end. *)
Fixpoint rollout_windows (env : Env) (m : TfModel) (n : nat) (window : list Q)
  : list (list Q) :=
  match n with
  | O => []
  | S n' => window :: rollout_windows env m n' (tl window ++ [answer env m window])
  end.

(** The days [d + 1, ..., d + n]. *)
Definition days_after (d : Day) (n : nat) : list Day :=
  map (fun i => d + Z.of_nat i + 1) (seq 0 n).

(** The prices of [n] mock steps from step [i] on, drawn from position [d]. *)
Definition mock_prices (env : Env) (last : Q) (i : Z) (d n : nat) : list Q :=
  map (fun k => mock_price env last (i + Z.of_nat k) (Math_random env (d + k))) (seq 0 n).

(** The world with another count of random draws. *)
Definition with_draws (w : World) (draws : nat) : World :=
  mkWorld (data w) (predictions w) (lstmParams w) (training w) (lossHistory w)
          (tfAvailable w) (model w) (persistedModel w) (mockMode w)
          (alerts w) (idbEntry w) draws (clock w) (predictCalls w).

(** A handler that leaves the mode selector as it found it. *)
Definition keeps_mode {A : Type} (c : M A) : Prop :=
  forall w,
    mockMode (snd (c w)) = mockMode w /\ tfAvailable (snd (c w)) = tfAvailable w.

(** A state change that does not touch the mode selector. *)
Definition beside_mode (f : World -> World) : Prop :=
  forall w, mockMode (f w) = mockMode w /\ tfAvailable (f w) = tfAvailable w.

(** A host whose offset from UTC never changes. *)
Definition fixed_offset (env : Env) : Prop :=
  exists c, forall t isUTC, LocalTZA env t isUTC = c.

(** The offset of the host does not change over the [n] days after day
    [d]: the offset in force at midnight UTC of [d] is also the one in
    force at the same local time of each of the next [n] days. *)
Definition steady_offset (env : Env) (d : Day) (n : Z) : Prop :=
  let c := LocalTZA env (Date_of_day d) true in
  forall i, 1 <= i <= n ->
            LocalTZA env (Date_of_day d + c + i * Js.msPerDay) false = c.

(** The world in which the rollout starts: the one the handler was called
    in, with the stored model made current when none was held. *)
Definition with_model_resolved (w : World) (m : TfModel) : World :=
  match model w with
  | Some _ => w
  | None => setPersistedModel true (setModel (Some (TrainedModel m)) w)
  end.

(** ** Model files: export and import *)

(** What lies outside the browser tab: the market-data service and the
    user's files. *)
Record Outside : Type := mkOutside {
  (** [axios.get(url)] for a symbol and a key, and what
      [res.data?.['Time Series (Daily)']] then is: nothing, or the entries
      of the series in the order of the response, each with its date and
      the [parseFloat] of its ['4. close'].  [Throw] is a request that
      fails or an entry that cannot be read; a close that does not parse
      is [NaN], which the rationals lack. *)
  axios_get : string -> string -> outcome (option (list (Day * Q)));
  (** [model.save('downloads://lstm-stock-model')] *)
  tf_download : TfModel -> outcome unit;
  (** [tf.loadLayersModel(tf.io.browserFiles(files))] *)
  tf_loadFiles : list string -> outcome TfModel
}.

(** [model.save(...)] on what the [model] state holds: the marker object
    of mock training has no [save]. *)
Definition model_save (out : Outside) (h : ModelHandle) : M unit :=
  match h with
  | TrainedModel m => host (tf_download out m)
  | MockModel _ => throw (Js.mkError "model.save is not a function")
  end.

Definition exportModel (env : Env) (out : Outside) : M unit :=
  fun w =>
    match model w with
    | None => exec (alert "Train a model first.") w
    | Some held =>
        if mockMode w || negb (tfAvailable w)
        then exec (alert "Cannot export in mock mode or without TensorFlow.js.") w
        else
          try_catch
            (host (tf_import env) ;;
             model_save out held ;;
             exec (alert "Model exported as files (JSON + weights)."))
            (fun err => exec (alert ("Export failed: " ++ Js.error_text err))) w
    end.

(** [!event?.target?.files || event.target.files.length < 1]; the files of
    the event are [None] when the event carries none. *)
Definition no_files (files : option (list string)) : bool :=
  match files with
  | None => true
  | Some names => (length names <? 1)%nat
  end.

Definition importModel (env : Env) (out : Outside) (files : option (list string))
  : M unit :=
  fun w =>
    try_catch
      ((if no_files files then throw (Js.mkError "No files selected") else ret tt) ;;
       if mockMode w then exec (alert "Cannot import model while in mock mode.")
       else
         host (tf_import env) ;;
         loadedModel <- host (tf_loadFiles out (match files with
                                                | Some names => names
                                                | None => []
                                                end)) ;;
         exec (setModel (Some (TrainedModel loadedModel))) ;;
         (if indexedDBAvailable env then
            try_catch
              (host (tf_save env loadedModel) ;;
               exec (setIdbEntry (Some loadedModel)) ;;
               exec (setPersistedModel true))
              (fun _ => ret tt)
          else ret tt) ;;
         exec (alert "Model imported and saved to browser storage (if available)."))
      (fun err => exec (alert ("Import failed: " ++ Js.error_text err))) w.

(** [disableMockMode], and the mock-mode checkbox of the settings drawer. *)
Definition disableMockMode : M unit := exec (setMockMode false).

Definition toggleMockMode (checked : bool) : M unit := exec (setMockMode checked).

(** [deletePersistedModel] as the handler of one render: the [mockMode] it
    tests is that of the world [w0] it was rendered from, whatever was set
    since.  [deletePersistedModel env] is this handler run in [w0] itself. *)
Definition deletePersistedModel_of (env : Env) (w0 : World) : M unit :=
  if negb (indexedDBAvailable env)
  then exec (alert "IndexedDB not available in this environment.")
  else if mockMode w0
  then exec (alert "No persisted real model when in mock mode.")
  else
    try_catch
      (host (tf_import env) ;;
       host (tf_removeModel env) ;;
       exec (setIdbEntry None) ;;
       exec (setPersistedModel false) ;;
       exec (setModel None) ;;
       exec (alert "Persisted model deleted."))
      (fun err =>
         exec (alert ("Failed to delete persisted model: " ++ Js.error_text err))).

(** ** The chart *)

Inductive PointType : Type := history | prediction.

Record ChartPoint : Type := mkChartPoint {
  chart_date : Day;
  chart_close : Q;
  type : PointType
}.

(** [({ ...d, type })] *)
Definition tagged (t : PointType) (d : PricePoint) : ChartPoint :=
  mkChartPoint (date d) (close d) t.

Definition chartData (w : World) : list ChartPoint :=
  map (tagged history) (data w) ++ map (tagged prediction) (predictions w).

Definition is_type (t : PointType) (d : ChartPoint) : bool :=
  match t, type d with
  | history, history | prediction, prediction => true
  | _, _ => false
  end.

(** [chartData.filter((d) => d.type === t)], the data of one line. *)
Definition line_data (t : PointType) (points : list ChartPoint) : list ChartPoint :=
  filter (is_type t) points.

(** [chartData.length > 0 && (...)]: whether the chart is rendered. *)
Definition chart_shown (w : World) : bool := (0 <? length (chartData w))%nat.

(** ** Settings and the local preference store *)

(** [localStorage]: what is stored under each key. *)
Definition Storage : Type := string -> option string.

Definition getItem (store : Storage) (key : string) : option string := store key.

Definition setItem (key value : string) (store : Storage) : Storage :=
  fun k => if String.eqb k key then Some value else store k.

Definition clear : Storage := fun _ => None.

(** [localStorage.getItem(key) || dflt]: a missing and an empty entry both
    give the default. *)
Definition item_or (store : Storage) (key dflt : string) : string :=
  match getItem store key with
  | Some value => if String.eqb value "" then dflt else value
  | None => dflt
  end.

(** The text [setItem] stores for a boolean. *)
Definition string_of_bool (b : bool) : string := if b then "true" else "false".

(** The component as a whole: the pipeline state with the settings, and
    the preference store of the browser. *)
Record Page : Type := mkPage {
  world : World;
  symbol : string;
  apiKey : string;
  rememberSettings : bool;
  loading : bool;
  theme : string;
  localStorage : Storage
}.

Definition onWorld (f : World -> World) (p : Page) : Page :=
  mkPage (f (world p)) (symbol p) (apiKey p) (rememberSettings p) (loading p)
         (theme p) (localStorage p).

Definition setSymbol (v : string) (p : Page) : Page :=
  mkPage (world p) v (apiKey p) (rememberSettings p) (loading p) (theme p)
         (localStorage p).

Definition setApiKey (v : string) (p : Page) : Page :=
  mkPage (world p) (symbol p) v (rememberSettings p) (loading p) (theme p)
         (localStorage p).

Definition setRememberSettings (v : bool) (p : Page) : Page :=
  mkPage (world p) (symbol p) (apiKey p) v (loading p) (theme p) (localStorage p).

Definition setLoading (v : bool) (p : Page) : Page :=
  mkPage (world p) (symbol p) (apiKey p) (rememberSettings p) v (theme p)
         (localStorage p).

Definition setTheme (v : string) (p : Page) : Page :=
  mkPage (world p) (symbol p) (apiKey p) (rememberSettings p) (loading p) v
         (localStorage p).

Definition onStorage (f : Storage -> Storage) (p : Page) : Page :=
  mkPage (world p) (symbol p) (apiKey p) (rememberSettings p) (loading p)
         (theme p) (f (localStorage p)).

(** Handlers over the whole page. *)
Definition MP (A : Type) : Type := Page -> outcome A * Page.

Definition retP {A : Type} (a : A) : MP A := fun p => (Ret a, p).

Definition throwP {A : Type} (err : Js.Error) : MP A := fun p => (Throw err, p).

Definition bindP {A B : Type} (c : MP A) (k : A -> MP B) : MP B :=
  fun p =>
    match c p with
    | (Ret a, p1) => k a p1
    | (Throw err, p1) => (Throw err, p1)
    end.

Definition execP (f : Page -> Page) : MP unit := fun p => (Ret tt, f p).

Definition hostP {A : Type} (r : outcome A) : MP A := fun p => (r, p).

(** A pipeline handler run inside the page. *)
Definition inWorld {A : Type} (c : M A) : MP A :=
  fun p => let (r, w1) := c (world p) in (r, onWorld (fun _ => w1) p).

Definition try_catchP {A : Type} (body : MP A) (handler : Js.Error -> MP A) : MP A :=
  fun p =>
    match body p with
    | (Ret a, p1) => (Ret a, p1)
    | (Throw err, p1) => handler err p1
    end.

Definition try_finallyP {A : Type} (body : MP A) (final : Page -> Page) : MP A :=
  fun p => let (r, p1) := body p in (r, final p1).

Declare Scope page_scope.
Delimit Scope page_scope with page.
Notation "x <- c ;; k" := (bindP c (fun x => k))
  (at level 61, c at next level, right associativity) : page_scope.
Notation "c ;; k" := (bindP c (fun _ => k))
  (at level 61, right associativity) : page_scope.

Definition handleRememberToggle (checked : bool) : MP unit :=
  (execP (setRememberSettings checked) ;;
   execP (onStorage (setItem "rememberSettings" (string_of_bool checked))))%page.

(** [setTheme(value)] together with the effect that depends on [theme]:
    when the theme changes, the new one is stored. *)
Definition changeTheme (value : string) : MP unit :=
  fun p =>
    if String.eqb (theme p) value then (Ret tt, p)
    else (Ret tt, onStorage (setItem "theme" value) (setTheme value p)).

(** [Object.keys(raw).map(...).reverse()] *)
Definition parse_series (raw : list (Day * Q)) : list PricePoint :=
  rev (map (fun entry => mkPoint (fst entry) (snd entry)) raw).

Definition fetchStockData (out : Outside) : MP unit :=
  fun p0 =>
    (execP (setLoading true) ;;
     try_finallyP
       (try_catchP
          ((if rememberSettings p0 then
              execP (onStorage (setItem "lastSymbol" (symbol p0))) ;;
              execP (onStorage (setItem "lastApiKey" (apiKey p0)))
            else retP tt) ;;
           raw <- hostP (axios_get out (symbol p0) (apiKey p0)) ;;
           match raw with
           | None => throwP (Js.mkError "Invalid response from API")
           | Some series => execP (onWorld (setData (parse_series series)))
           end)
          (fun _ =>
             inWorld (exec (alert "Failed to fetch stock data. Check your API key or symbol."))))
       (setLoading false))%page p0.

Definition resetAllSettings (env : Env) : MP unit :=
  fun p0 =>
    (execP (onStorage (fun _ => clear)) ;;
     execP (setSymbol "AAPL") ;;
     execP (setApiKey "") ;;
     execP (setRememberSettings false) ;;
     changeTheme "light" ;;
     execP (onWorld (setMockMode true)) ;;
     execP (onWorld (setTfAvailable false)) ;;
     try_catchP (inWorld (deletePersistedModel_of env (world p0))) (fun _ => retP tt) ;;
     inWorld (exec (alert "All settings reset to default.")))%page p0.

(** A string is truthy when it is not empty. *)
Definition truthy (s : string) : bool := negb (String.eqb s "").

(** The state of a freshly mounted component in a browser that was left as
    [old]: the [useState] initializers read the preference store; the
    IndexedDB entry, the alerts shown so far, the random source and the
    clock are the browser's and stay. *)
Definition initial_page (old : Page) : Page :=
  let store := localStorage old in
  mkPage
    (mkWorld [] [] default_params false [] false None false true
             (alerts (world old)) (idbEntry (world old)) (randomCalls (world old))
             (clock (world old)) (predictCalls (world old)))
    (item_or store "lastSymbol" "AAPL")
    (item_or store "lastApiKey" "")
    (match getItem store "rememberSettings" with
     | Some value => String.eqb value "true"
     | None => false
     end)
    false
    (item_or store "theme" "light")
    store.

(** Mounting: the two effects run once, the theme is stored and, when the
    user opted in and a symbol and a key are known, the series is fetched. *)
Definition mount (out : Outside) (old : Page) : outcome unit * Page :=
  let p := initial_page old in
  let p1 := onStorage (setItem "theme" (theme p)) p in
  if rememberSettings p1 && truthy (symbol p1) && truthy (apiKey p1)
  then try_catchP (fetchStockData out) (fun _ => retP tt) p1
  else (Ret tt, p1).

(** ** More sample hosts and states *)

(** An outside world that answers a descending series, downloads every
    model and loads model [9] from any files. *)
Definition sample_outside : Outside :=
  mkOutside
    (fun _ _ => Ret (Some [(19810, 102%Q); (19809, 104%Q); (19808, 100%Q)]))
    (fun _ => Ret tt)
    (fun _ => Ret 9%nat).

(** An outside world whose service answers without a time series. *)
Definition silent_outside : Outside :=
  mkOutside (fun _ _ => Ret None) (fun _ => Ret tt) (fun _ => Ret 9%nat).

(** A page on the march closes, with the engine enabled and model [7]
    held, a key entered and the settings remembered. *)
Definition sample_page : Page :=
  mkPage march_ready_world "MSFT" "demo" true false "dark"
         (setItem "rememberSettings" "true" clear).

(** A host on which IndexedDB exists but refuses to save. *)
Definition readonly_host : Env :=
  mkEnv true (Ret tt)
        (fun _ _ _ => Ret tt)
        (fun _ => Ret 7%nat)
        (fun _ _ _ _ => ([0.5; 0.25]%Q, Ret tt))
        (fun _ => Throw (Js.mkError "QuotaExceededError"))
        (Ret tt)
        (fun _ _ => Ret tt)
        (fun _ input => Ret ((hd 0 input + last input 0) / 2)%Q)
        sample_exp sample_sin sample_random
        (fun _ _ => 0).

(** A series is in ascending order of dates, without repeated dates. *)
Definition ascending (points : list PricePoint) : Prop :=
  forall i j p q,
    (i < j)%nat -> nth_error points i = Some p -> nth_error points j = Some q ->
    date p < date q.

(** The entries of a response are in descending order of dates. *)
Definition descending (series : list (Day * Q)) : Prop :=
  forall i j e f,
    (i < j)%nat -> nth_error series i = Some e -> nth_error series j = Some f ->
    fst f < fst e.

(** ** Everything a user can do *)




(** * Properties *)

(** ** Series normalizer *)

Lemma num_or_nonzero (a : Q) : ~ (Js.num_or a 1 == 0)%Q.
Proof.
  unfold Js.num_or. destruct (Qeq_bool a 0) eqn:E.
  - discriminate.
  - now apply Qeq_bool_neq.
Qed.

Lemma num_or_zero (a : Q) : (a == 0)%Q -> Js.num_or a 1 = 1%Q.
Proof.
  intros H. unfold Js.num_or. apply Qeq_eq_bool in H. now rewrite H.
Qed.

Lemma roundtrip_value (v mn r : Q) :
  ~ (r == 0)%Q -> ((v - mn) / r * r + mn == v)%Q.
Proof. intros H. field. exact H. Qed.

Lemma fold_min_const (c : Q) (rest : list Q) (acc : Q) :
  (acc == c)%Q -> Forall (fun v => v == c)%Q rest ->
  (fold_left Qmin rest acc == c)%Q.
Proof.
  revert acc. induction rest as [|y rest IH]; intros acc Hacc Hall; simpl.
  - exact Hacc.
  - inversion Hall as [|? ? Hy Hrest]; subst. apply IH; [|exact Hrest].
    rewrite (Q.min_l acc y).
    + exact Hacc.
    + rewrite Hacc, Hy. apply Qle_refl.
Qed.

Lemma fold_max_const (c : Q) (rest : list Q) (acc : Q) :
  (acc == c)%Q -> Forall (fun v => v == c)%Q rest ->
  (fold_left Qmax rest acc == c)%Q.
Proof.
  revert acc. induction rest as [|y rest IH]; intros acc Hacc Hall; simpl.
  - exact Hacc.
  - inversion Hall as [|? ? Hy Hrest]; subst. apply IH; [|exact Hrest].
    rewrite (Q.max_l acc y).
    + exact Hacc.
    + rewrite Hacc, Hy. apply Qle_refl.
Qed.

Lemma denormalize_normalize (x : list Q) :
  Forall2 Qeq (denormalize (norm (normalize x)) (min (normalize x)) (max (normalize x))) x.
Proof.
  unfold normalize, normalize_with, denormalize; simpl.
  set (mn := Js.Math_min x). set (mx := Js.Math_max x).
  generalize (num_or_nonzero (mx - mn)). generalize (Js.num_or (mx - mn) 1).
  clearbody mn mx. intros r Hr. induction x as [|v x IH]; simpl; constructor.
  - now apply roundtrip_value.
  - exact IH.
Qed.

(** C1. For a non-empty sequence [x], denormalizing [normalize x] with the
    minimum and maximum it reports gives [x] back, value by value, in exact
    arithmetic.  The one number [normalize] divides by, whatever the
    division does, is not zero, and [denormalize] multiplies by the same
    number; when all values of [x] are equal this number is [1], and every
    normalized value is [0]. *)
Theorem normalize_roundtrip (x : list Q) :
  x <> [] ->
  let n := normalize x in
  Forall2 Qeq (denormalize (norm n) (min n) (max n)) x
  /\ exists range,
      ~ (range == 0)%Q
      /\ (forall div,
            norm (normalize_with div x) = map (fun v => div (v - min n) range)%Q x)
      /\ (forall arr,
            denormalize arr (min n) (max n) = map (fun v => v * range + min n)%Q arr)
      /\ ((forall v, In v x -> v == hd 0 x)%Q ->
          range = 1%Q /\ Forall (fun v => v == 0)%Q (norm n)).
Proof.
  intros Hne n. split; [apply denormalize_normalize|].
  exists (Js.num_or (max n - min n) 1).
  split; [apply num_or_nonzero|]. split; [reflexivity|]. split; [reflexivity|].
  intros Heq. destruct x as [|c rest]; [congruence|]. simpl in Heq.
  assert (Hall : Forall (fun v => v == c)%Q rest).
  { apply Forall_forall. intros v Hv. apply Heq. now right. }
  assert (Hmin : (min n == c)%Q) by (apply fold_min_const; [reflexivity|exact Hall]).
  assert (Hmax : (max n == c)%Q) by (apply fold_max_const; [reflexivity|exact Hall]).
  assert (Hr : Js.num_or (max n - min n) 1 = 1%Q).
  { apply num_or_zero. rewrite Hmin, Hmax. ring. }
  split; [exact Hr|].
  assert (Hnorm : norm n = map (fun v => (v - min n) / Js.num_or (max n - min n) 1)%Q (c :: rest))
    by reflexivity.
  rewrite Hnorm, Hr. apply Forall_map, Forall_forall. intros u Hu.
  rewrite (Heq u Hu), Hmin. field.
Qed.

Lemma normalize_roundtrip_witness :
  let x := [100; 104; 102]%Q in
  x <> [] /\ Forall2 Qeq (denormalize (norm (normalize x)) (min (normalize x)) (max (normalize x))) x.
Proof.
  split; [discriminate|].
  apply (normalize_roundtrip [100; 104; 102]%Q). discriminate.
Defined.

(** On a series of equal values the division by the range is a division by
    one, not by zero: a division that answers [7] on a zero divisor gives
    the same normalized values as the exact one. *)
Example normalize_degenerate :
  norm (normalize_with (fun a b => if Qeq_bool b 0 then 7 else a / b)%Q [5; 5; 5]%Q)
  = norm (normalize [5; 5; 5]%Q).
Proof. reflexivity. Qed.

(** ** Built-ins on small inputs *)

Example slice_middle : Js.slice [10; 20; 30; 40] 1 3 = [20; 30].
Proof. reflexivity. Qed.

Example slice_from_negative : Js.slice_from [10; 20; 30; 40] (-3) = [20; 30; 40].
Proof. reflexivity. Qed.

Example slice_from_beyond : Js.slice_from [10; 20; 30] (-20) = [10; 20; 30].
Proof. reflexivity. Qed.

Example index_outside : Js.index [10; 20; 30] 3 = None /\ Js.index [10; 20; 30] (-1) = None.
Proof. now split. Qed.

Example normalize_sample :
  norm (normalize [100; 104; 102]%Q) = [0 / 4; 4 / 4; 2 / 4]%Q.
Proof. reflexivity. Qed.

Example windows_sample :
  build_windows [1; 2; 3; 4]%Q 2 = ([[1; 2]; [2; 3]]%Q, [Some 3%Q; Some 4%Q]).
Proof. reflexivity. Qed.

(** A lookback that is not positive: the loop runs past the series and the
    targets beyond it are [undefined]. *)
Example windows_zero_lookback :
  build_windows [1; 2]%Q 0 = ([[]; []], [Some 1%Q; Some 2%Q]).
Proof. reflexivity. Qed.

(** ** Windowing *)

Lemma map_seq_S {A : Type} (f : nat -> A) (n : nat) :
  map f (seq 0 (S n)) = f 0%nat :: map (fun k => f (S k)) (seq 0 n).
Proof. simpl. now rewrite <- seq_shift, map_map. Qed.

Lemma windows_loop_map (norm : list Q) (L : Z) (todo : nat) :
  forall (i : Z) xs ys,
    windows_loop norm L todo i xs ys =
    (xs ++ map (fun k => Js.slice norm (i + Z.of_nat k) (i + Z.of_nat k + L)) (seq 0 todo),
     ys ++ map (fun k => Js.index norm (i + Z.of_nat k + L)) (seq 0 todo)).
Proof.
  induction todo as [|todo IH]; intros i xs ys.
  - simpl. now rewrite !app_nil_r.
  - cbn [windows_loop]. rewrite IH, !map_seq_S, <- !app_assoc. cbn [app].
    rewrite !Z.add_0_r.
    rewrite (map_ext (fun k => Js.slice norm (i + 1 + Z.of_nat k) (i + 1 + Z.of_nat k + L))
                     (fun k => Js.slice norm (i + Z.of_nat (S k)) (i + Z.of_nat (S k) + L)))
      by (intros k; f_equal; lia).
    rewrite (map_ext (fun k => Js.index norm (i + 1 + Z.of_nat k + L))
                     (fun k => Js.index norm (i + Z.of_nat (S k) + L)))
      by (intros k; f_equal; lia).
    reflexivity.
Qed.

Lemma build_windows_map (norm : list Q) (L : Z) :
  build_windows norm L =
  (map (fun k => Js.slice norm (Z.of_nat k) (Z.of_nat k + L))
       (seq 0 (Z.to_nat (Z.of_nat (length norm) - L))),
   map (fun k => Js.index norm (Z.of_nat k + L))
       (seq 0 (Z.to_nat (Z.of_nat (length norm) - L)))).
Proof. unfold build_windows. now rewrite windows_loop_map. Qed.

Lemma build_windows_short (norm : list Q) (L : Z) :
  Z.of_nat (length norm) <= L -> build_windows norm L = ([], []).
Proof.
  intros H. rewrite build_windows_map.
  replace (Z.to_nat (Z.of_nat (length norm) - L)) with 0%nat by lia. reflexivity.
Qed.

Lemma slice_inside {A : Type} (arr : list A) (i L : Z) :
  0 <= i -> 0 <= L -> i + L <= Z.of_nat (length arr) ->
  Js.slice arr i (i + L) = firstn (Z.to_nat L) (skipn (Z.to_nat i) arr).
Proof.
  intros Hi HL Hfit. unfold Js.slice, Js.slice_index.
  destruct (Z.ltb_spec i 0); [lia|]. destruct (Z.ltb_spec (i + L) 0); [lia|].
  rewrite !Z.min_l by lia. do 2 f_equal. lia.
Qed.

Lemma slice_inside_length {A : Type} (arr : list A) (i L : Z) :
  0 <= i -> 0 <= L -> i + L <= Z.of_nat (length arr) ->
  Z.of_nat (length (Js.slice arr i (i + L))) = L.
Proof.
  intros Hi HL Hfit. rewrite slice_inside by assumption.
  rewrite length_firstn, length_skipn. lia.
Qed.

Lemma index_inside {A : Type} (arr : list A) (i : Z) :
  0 <= i < Z.of_nat (length arr) ->
  exists a, Js.index arr i = Some a /\ nth_error arr (Z.to_nat i) = Some a.
Proof.
  intros Hi. unfold Js.index. destruct (Z.ltb_spec i 0); [lia|].
  destruct (nth_error arr (Z.to_nat i)) as [a|] eqn:E.
  - now exists a.
  - apply nth_error_None in E. lia.
Qed.

Lemma normalize_length (arr : list Q) : length (norm (normalize arr)) = length arr.
Proof. unfold normalize, normalize_with; simpl. apply length_map. Qed.

Lemma liveTrain_body_short (env : Env) (w0 w : World) :
  tf_import env = Ret tt ->
  Z.of_nat (length (data w0)) <= lookback (lstmParams w0) ->
  liveTrain_body env w0 w =
  (Throw (Js.mkError "Not enough data for the chosen lookback."), w).
Proof.
  intros Himport Hshort. unfold liveTrain_body.
  rewrite build_windows_short
    by (now rewrite normalize_length, length_map).
  unfold bind, host. rewrite Himport. reflexivity.
Qed.

(** What [trainLSTM] leaves when its real path stops on too short a series. *)
Lemma trainLSTM_short (env : Env) (w : World) :
  data w <> [] -> mockMode w = false -> tfAvailable w = true ->
  tf_import env = Ret tt ->
  Z.of_nat (length (data w)) <= lookback (lstmParams w) ->
  trainLSTM env w =
  (Ret tt,
   setTraining false
     (alert "Training failed: Not enough data for the chosen lookback."
        (setLossHistory [] (setTraining true w)))).
Proof.
  intros Hdata Hmock Htf Himport Hshort. unfold trainLSTM.
  destruct (data w) as [|p rest] eqn:Ed; [congruence|]. cbn [length Nat.eqb].
  rewrite Hmock, Htf. cbn [orb negb].
  unfold liveTrain, try_finally, try_catch, bind, exec.
  rewrite liveTrain_body_short; [reflexivity|exact Himport|].
  rewrite Ed. exact Hshort.
Qed.

(** C2. For a series of length [N] and a lookback [L >= 1] the windowing
    loop builds [max 0 (N - L)] windows and as many targets; window [i] is
    the [L] values from position [i] on and its target is the value at
    position [i + L]; for [N <= L] nothing is built, and real training on
    such a series ends in the alert "Training failed: Not enough data for
    the chosen lookback.", with the training flag cleared and the model
    kept. *)
Theorem windowing_and_insufficient_data (series : list Q) (L : Z) :
  1 <= L ->
  let N := Z.of_nat (length series) in
  let xs := fst (build_windows series L) in
  let ys := snd (build_windows series L) in
  Z.of_nat (length xs) = Z.max 0 (N - L)
  /\ length ys = length xs
  /\ (forall i, 0 <= i < N - L ->
      exists win target,
        nth_error xs (Z.to_nat i) = Some win
        /\ Z.of_nat (length win) = L
        /\ win = firstn (Z.to_nat L) (skipn (Z.to_nat i) series)
        /\ nth_error ys (Z.to_nat i) = Some (Some target)
        /\ nth_error series (Z.to_nat (i + L)) = Some target)
  /\ (N <= L -> xs = [] /\ ys = [])
  /\ (forall env w,
        data w <> [] -> mockMode w = false -> tfAvailable w = true ->
        tf_import env = Ret tt ->
        Z.of_nat (length (data w)) <= lookback (lstmParams w) ->
        let w' := world_after (trainLSTM env) w in
        ending (trainLSTM env) w = Ret tt
        /\ alerts w' =
           alerts w ++ ["Training failed: Not enough data for the chosen lookback."%string]
        /\ training w' = false
        /\ model w' = model w).
Proof.
  intros HL N xs ys. subst xs ys. rewrite build_windows_map. cbn [fst snd].
  fold N. rewrite !length_map, !length_seq.
  split; [lia|]. split; [reflexivity|]. split; [|split].
  - intros i Hi.
    destruct (index_inside series (i + L)) as (target & Hidx & Hnth); [lia|].
    exists (Js.slice series i (i + L)), target.
    assert (Hseq : nth_error (seq 0 (Z.to_nat (N - L))) (Z.to_nat i) = Some (Z.to_nat i)).
    { rewrite nth_error_nth' with (d := 0%nat) by (rewrite length_seq; lia).
      rewrite seq_nth by lia. reflexivity. }
    rewrite !nth_error_map, Hseq. cbn [option_map].
    rewrite !Z2Nat.id by lia.
    split; [reflexivity|]. split; [apply slice_inside_length; lia|].
    split; [apply slice_inside; lia|]. split; [now rewrite Hidx|exact Hnth].
  - intros Hshort. replace (Z.to_nat (N - L)) with 0%nat by lia. now split.
  - intros env w Hdata Hmock Htf Himport Hshort.
    unfold world_after, ending.
    rewrite trainLSTM_short by assumption. cbn. repeat split; reflexivity.
Qed.

Lemma windowing_and_insufficient_data_witness :
  1 <= 2
  /\ Z.of_nat (length (fst (build_windows [0; 0.5; 1; 0.25; 0.75]%Q 2))) = Z.max 0 (5 - 2).
Proof.
  split; [lia|].
  destruct (windowing_and_insufficient_data [0; 0.5; 1; 0.25; 0.75]%Q 2) as (Hcount & _);
    [lia|exact Hcount].
Defined.

(** ** Mock engine *)

Lemma with_trace_same (w : World) : with_trace w (lossHistory w) (randomCalls w) = w.
Proof. now destruct w. Qed.

Lemma mock_losses_S (env : Env) (E e : Z) (d n : nat) :
  mock_losses env E e d (S n) =
  mock_loss env E e (Math_random env d) :: mock_losses env E (e + 1) (S d) n.
Proof.
  unfold mock_losses. rewrite map_seq_S, Z.add_0_r, Nat.add_0_r. f_equal.
  apply map_ext. intros k.
  replace (e + Z.of_nat (S k)) with (e + 1 + Z.of_nat k) by lia.
  replace (d + S k)%nat with (S d + k)%nat by lia. reflexivity.
Qed.

Lemma mockTrain_loop_trace (env : Env) (E : Z) (todo : nat) :
  forall e lossArr w,
    lossHistory w = lossArr ->
    mockTrain_loop env E todo e lossArr w =
    (lossArr ++ mock_losses env E e (randomCalls w) todo,
     with_trace w (lossArr ++ mock_losses env E e (randomCalls w) todo)
                (randomCalls w + todo)).
Proof.
  induction todo as [|todo IH]; intros e lossArr w Hinv.
  - cbn [mockTrain_loop]. unfold mock_losses; cbn [seq map].
    rewrite app_nil_r, Nat.add_0_r, <- Hinv, with_trace_same. reflexivity.
  - cbn [mockTrain_loop random]. rewrite IH by reflexivity.
    rewrite mock_losses_S, <- app_assoc. cbn [app randomCalls].
    unfold with_trace, setLossHistory; cbn.
    rewrite Nat.add_succ_r. reflexivity.
Qed.

(** Running [j + k] rounds is running [j] rounds and then [k] more. *)
Lemma mockTrain_loop_add (env : Env) (E : Z) (j k : nat) :
  forall e lossArr w,
    mockTrain_loop env E (j + k) e lossArr w =
    mockTrain_loop env E k (e + Z.of_nat j)
                   (fst (mockTrain_loop env E j e lossArr w))
                   (snd (mockTrain_loop env E j e lossArr w)).
Proof.
  induction j as [|j IH]; intros e lossArr w.
  - cbn. now rewrite Z.add_0_r.
  - cbn [Nat.add mockTrain_loop]. destruct (random env w) as [r w1].
    rewrite IH. now replace (e + 1 + Z.of_nat j) with (e + Z.of_nat (S j)) by lia.
Qed.

(** The state after [j + k] epochs is reached from the state after [j]
    epochs by [k] more rounds of the loop. *)
Lemma mockTrain_progress_resumes (env : Env) (j k : nat) (w : World) :
  mockTrain_progress env (j + k) w =
  mockTrain_loop env (mock_epochs w) k (Z.of_nat j)
                 (fst (mockTrain_progress env j w))
                 (snd (mockTrain_progress env j w)).
Proof. unfold mockTrain_progress. now rewrite mockTrain_loop_add. Qed.

Lemma mockTrain_progress_trace (env : Env) (k : nat) (w : World) :
  mockTrain_progress env k w =
  (mock_losses env (mock_epochs w) 0 (randomCalls w) k,
   with_trace (setTraining true w)
              (mock_losses env (mock_epochs w) 0 (randomCalls w) k)
              (randomCalls w + k)).
Proof.
  unfold mockTrain_progress. rewrite mockTrain_loop_trace by reflexivity.
  reflexivity.
Qed.

(** The world [mockTrain] leaves. *)
Lemma mockTrain_world (env : Env) (w : World) :
  mockTrain env w =
  (Ret tt,
   alert "Mock training complete (TF not required)."
     (setTraining false
        (setPersistedModel false
           (setModel (Some (MockModel (clock w)))
              (snd (mockTrain_progress env (Z.to_nat (mock_epochs w)) w)))))).
Proof.
  unfold mockTrain. rewrite mockTrain_progress_trace. reflexivity.
Qed.

Lemma mock_losses_length (env : Env) (E e : Z) (d n : nat) :
  length (mock_losses env E e d n) = n.
Proof. unfold mock_losses. now rewrite length_map, length_seq. Qed.

Lemma mock_losses_nth (env : Env) (E e : Z) (d n k : nat) :
  (k < n)%nat ->
  nth_error (mock_losses env E e d n) k =
  Some (mock_loss env E (e + Z.of_nat k) (Math_random env (d + k))).
Proof.
  intros Hk. unfold mock_losses. rewrite nth_error_map.
  rewrite nth_error_nth' with (d := 0%nat) by (now rewrite length_seq).
  rewrite seq_nth by exact Hk. reflexivity.
Qed.

Lemma mock_losses_prefix (env : Env) (E : Z) (j k : nat) :
  forall e d,
    mock_losses env E e d (j + k) =
    mock_losses env E e d j ++ mock_losses env E (e + Z.of_nat j) (d + j) k.
Proof.
  induction j as [|j IH]; intros e d.
  - cbn [Nat.add]. unfold mock_losses at 2; cbn [seq map app].
    now rewrite Z.add_0_r, Nat.add_0_r.
  - cbn [Nat.add]. rewrite !mock_losses_S, IH. cbn [app].
    replace (e + 1 + Z.of_nat j) with (e + Z.of_nat (S j)) by lia.
    now replace (S d + j)%nat with (d + S j)%nat by lia.
Qed.

Lemma mock_epochs_pos (w : World) :
  1 <= epochs (lstmParams w) -> mock_epochs w = epochs (lstmParams w).
Proof.
  intros H. unfold mock_epochs, Js.int_or.
  destruct (Z.eqb_spec (epochs (lstmParams w)) 0); [lia|reflexivity].
Qed.

Lemma noise_bounds (r : Q) : (0 <= r < 1 -> 0 <= r * 0.05 < 0.05)%Q.
Proof.
  intros [Hlo Hhi]. unfold Qle, Qlt in *. cbn in *. lia.
Qed.

(** C7. With [E >= 1] epochs configured and a random source that answers
    in [0, 1), [mockTrain] draws one random number per epoch and leaves a
    loss trace of length [E] whose entry [e] is [exp(-e / (E/5))] plus the
    draw of that epoch times 0.05, a noise in [0, 0.05); the trace
    published after [j] epochs has length [j] and is a prefix of the one
    published after any later epoch [k], up to the final trace after [E]
    epochs. *)
Theorem mockTrain_loss_trace (env : Env) (w : World) :
  1 <= epochs (lstmParams w) ->
  (forall k, 0 <= Math_random env k < 1)%Q ->
  let E := epochs (lstmParams w) in
  let trace := lossHistory (world_after (mockTrain env) w) in
  let during := fun k : nat => lossHistory (snd (mockTrain_progress env k w)) in
  let draw := fun e : Z => Math_random env (randomCalls w + Z.to_nat e) in
  length trace = Z.to_nat E
  /\ (forall e, 0 <= e < E ->
      nth_error trace (Z.to_nat e) =
      Some (Math_exp env (- inject_Z e / (inject_Z E / 5)) + draw e * 0.05)%Q
      /\ (0 <= draw e * 0.05 < 0.05)%Q)
  /\ randomCalls (world_after (mockTrain env) w) = (randomCalls w + Z.to_nat E)%nat
  /\ during (Z.to_nat E) = trace
  /\ (forall j k, (j <= k <= Z.to_nat E)%nat ->
      length (during j) = j /\ exists more, during k = during j ++ more).
Proof.
  intros HE Hrandom E trace during draw. subst trace during draw.
  unfold world_after. rewrite mockTrain_world. cbn [snd].
  assert (Hduring : forall k,
             lossHistory (snd (mockTrain_progress env k w)) =
             mock_losses env E 0 (randomCalls w) k).
  { intros k. rewrite mockTrain_progress_trace. cbn [snd].
    now rewrite (mock_epochs_pos w HE). }
  assert (Hdraws : randomCalls (snd (mockTrain_progress env (Z.to_nat E) w))
                   = (randomCalls w + Z.to_nat E)%nat)
    by now rewrite mockTrain_progress_trace.
  rewrite (mock_epochs_pos w HE). fold E.
  change (lossHistory
            (alert "Mock training complete (TF not required)."
               (setTraining false
                  (setPersistedModel false
                     (setModel (Some (MockModel (clock w)))
                        (snd (mockTrain_progress env (Z.to_nat E) w)))))))
    with (lossHistory (snd (mockTrain_progress env (Z.to_nat E) w))).
  change (randomCalls
            (alert "Mock training complete (TF not required)."
               (setTraining false
                  (setPersistedModel false
                     (setModel (Some (MockModel (clock w)))
                        (snd (mockTrain_progress env (Z.to_nat E) w)))))))
    with (randomCalls (snd (mockTrain_progress env (Z.to_nat E) w))).
  rewrite Hduring. split; [apply mock_losses_length|]. split; [|split; [|split]].
  - intros e He. split; [|apply noise_bounds, Hrandom].
    rewrite mock_losses_nth by lia. rewrite Z.add_0_l, Z2Nat.id by lia.
    reflexivity.
  - exact Hdraws.
  - reflexivity.
  - intros j k [Hjk Hk]. rewrite !Hduring. split; [apply mock_losses_length|].
    replace k with (j + (k - j))%nat by lia. rewrite mock_losses_prefix.
    eexists. replace (j + (j + (k - j) - j))%nat with (j + (k - j))%nat by lia.
    reflexivity.
Qed.

Lemma sample_random_unit (k : nat) : (0 <= sample_random k < 1)%Q.
Proof.
  unfold sample_random, Qle, Qlt. cbn.
  pose proof (Z.mod_pos_bound (Z.of_nat k) 7 ltac:(lia)). lia.
Qed.

Lemma mockTrain_loss_trace_witness :
  1 <= epochs (lstmParams (initial_world 0))
  /\ length (lossHistory (world_after (mockTrain (fixed_host 0)) (initial_world 0))) = 30%nat.
Proof.
  split; [cbn; lia|].
  destruct (mockTrain_loss_trace (fixed_host 0) (initial_world 0)) as (Hlen & _).
  - cbn. lia.
  - exact sample_random_unit.
  - exact Hlen.
Defined.

(** C10. Every run of [mockTrain] completes and leaves as current model the
    mock marker stamped with the clock, with the persisted flag off; it does
    not touch what IndexedDB holds, so a real model that was held and
    persisted before is still stored while the flag says otherwise. *)
Theorem mockTrain_replaces_model (env : Env) (w : World) :
  let w' := world_after (mockTrain env) w in
  ending (mockTrain env) w = Ret tt
  /\ model w' = Some (MockModel (clock w'))
  /\ (exists h, model w' = Some h /\ is_mock h = true)
  /\ persistedModel w' = false
  /\ idbEntry w' = idbEntry w
  /\ (forall m,
        model w = Some (TrainedModel m) -> persistedModel w = true ->
        idbEntry w = Some m ->
        model w' <> model w /\ persistedModel w' = false /\ idbEntry w' = Some m).
Proof.
  unfold world_after, ending. rewrite mockTrain_world, mockTrain_progress_trace.
  cbn. split; [reflexivity|]. split; [reflexivity|].
  split; [now exists (MockModel (clock w))|]. split; [reflexivity|].
  split; [reflexivity|]. intros m Hm _ Hidb. rewrite Hm, Hidb.
  repeat split. discriminate.
Qed.

(** ** Mode selector *)

(** C4, amended. Once data is fetched, [trainLSTM] and [predictLSTM] run
    the mock implementation whenever mock mode is on or the engine flag is
    off, and the real path otherwise; [predictLSTM] agrees with
    [mockPredict] in mock mode even without data.  Without data neither
    trains nor predicts: [trainLSTM] only asks to fetch data first and
    [predictLSTM] does nothing. *)
Theorem dispatch_by_mode (env : Env) (horizon : Z) (w : World) :
  (data w <> [] ->
   (mockMode w = true \/ tfAvailable w = false ->
    trainLSTM env w = mockTrain env w
    /\ predictLSTM env horizon w = mockPredict env horizon w)
   /\ (mockMode w = false /\ tfAvailable w = true ->
       trainLSTM env w = liveTrain env w
       /\ predictLSTM env horizon w = livePredict env horizon w))
  /\ (mockMode w = true \/ tfAvailable w = false ->
      predictLSTM env horizon w = mockPredict env horizon w)
  /\ (data w = [] ->
      trainLSTM env w = (Ret tt, alert "Fetch data first." w)
      /\ predictLSTM env horizon w = (Ret tt, w)).
Proof.
  unfold trainLSTM, predictLSTM, mockPredict, exec.
  destruct (data w) as [|p rest] eqn:Ed; cbn [length Nat.eqb].
  - split; [congruence|]. split; [reflexivity|]. now split.
  - split; [|split; [|discriminate]].
    + intros _. split.
      * intros [Hm|Ht]; [rewrite Hm|rewrite Ht, orb_true_r]; now split.
      * intros [Hm Ht]. rewrite Hm, Ht. now split.
    + intros [Hm|Ht]; [rewrite Hm|rewrite Ht, orb_true_r]; reflexivity.
Qed.

(** C4 as stated fails without data: in mock mode with nothing fetched,
    [trainLSTM] shows "Fetch data first." and leaves no model, where
    [mockTrain] would complete and leave its marker. *)
Lemma trainLSTM_needs_data :
  mockMode (initial_world 0) = true
  /\ alerts (world_after (trainLSTM bare_host) (initial_world 0)) = ["Fetch data first."%string]
  /\ model (world_after (trainLSTM bare_host) (initial_world 0)) = None
  /\ model (world_after (mockTrain bare_host) (initial_world 0)) = Some (MockModel 0)
  /\ trainLSTM bare_host (initial_world 0) <> mockTrain bare_host (initial_world 0).
Proof.
  split; [reflexivity|]. split; [reflexivity|]. split; [reflexivity|].
  split; [vm_compute; reflexivity|].
  intros Heq. apply (f_equal (fun r => model (snd r))) in Heq.
  vm_compute in Heq. discriminate.
Qed.

(** ** Model lifecycle *)

(** C9. [deletePersistedModel] never throws.  Without IndexedDB it only
    reports that storage is not available; with IndexedDB but in mock mode
    it only reports that there is no persisted real model; the stored
    entry, the current model or the persisted flag change only when
    IndexedDB exists and mock mode is off, and when the engine then loads
    and removes the entry, the entry, the current model and the flag are
    cleared. *)
Theorem deletePersistedModel_guards (env : Env) (w : World) :
  let w' := world_after (deletePersistedModel env) w in
  ending (deletePersistedModel env) w = Ret tt
  /\ (indexedDBAvailable env = false ->
      w' = alert "IndexedDB not available in this environment." w
      /\ model w' = model w)
  /\ (indexedDBAvailable env = true -> mockMode w = true ->
      w' = alert "No persisted real model when in mock mode." w)
  /\ (idbEntry w' <> idbEntry w \/ model w' <> model w
      \/ persistedModel w' <> persistedModel w ->
      indexedDBAvailable env = true /\ mockMode w = false)
  /\ (indexedDBAvailable env = true -> mockMode w = false ->
      tf_import env = Ret tt -> tf_removeModel env = Ret tt ->
      idbEntry w' = None /\ model w' = None /\ persistedModel w' = false
      /\ alerts w' = alerts w ++ ["Persisted model deleted."%string]).
Proof.
  unfold world_after, ending, deletePersistedModel, try_catch, bind, host, exec,
    indexedDBAvailable.
  destruct (hasIndexedDB env); destruct (mockMode w);
    destruct (tf_import env) as [[]|e1]; destruct (tf_removeModel env) as [[]|e2];
    cbn; repeat split; try discriminate; try reflexivity;
    intros; try discriminate;
    repeat match goal with H : _ \/ _ |- _ => destruct H end; congruence.
Qed.

(** ** Live training *)

Lemma onEpochEnd_all_frame (losses : list Q) :
  forall lossArr w,
  exists trace,
    snd (onEpochEnd_all losses lossArr w) = with_trace w trace (randomCalls w).
Proof.
  induction losses as [|loss rest IH]; intros lossArr w; cbn [onEpochEnd_all].
  - exists (lossHistory w). cbn [snd]. now rewrite with_trace_same.
  - destruct (IH (lossArr ++ [loss]) (setLossHistory (lossArr ++ [loss]) w)) as [trace Ht].
    exists trace. rewrite Ht. reflexivity.
Qed.

(** A throwing training body has changed neither the model, nor the
    persisted flag, nor the stored entry, and has shown no alert. *)
Lemma liveTrain_body_throw_frame (env : Env) (w0 w w1 : World) (err : Js.Error) :
  liveTrain_body env w0 w = (Throw err, w1) ->
  model w1 = model w /\ persistedModel w1 = persistedModel w
  /\ idbEntry w1 = idbEntry w /\ alerts w1 = alerts w.
Proof.
  unfold liveTrain_body, bind, host, throw, ret, exec, try_catch, fit,
    indexedDBAvailable.
  destruct (tf_import env) as [[]|e0]; [|intros [= _ <-]; now repeat split].
  destruct (build_windows _ _) as [xs ys].
  destruct (length xs =? 0)%nat; [intros [= _ <-]; now repeat split|].
  destruct (tf_tensors env xs ys _) as [[]|e1]; [|intros [= _ <-]; now repeat split].
  destruct (tf_build env _) as [lstmModel|e2]; [|intros [= _ <-]; now repeat split].
  destruct (tf_fit env lstmModel xs ys _) as [losses final].
  destruct (onEpochEnd_all_frame losses [] w) as [trace Ht].
  destruct (onEpochEnd_all losses [] w) as [arr wf]. cbn [snd] in Ht. subst wf.
  destruct final as [[]|e3]; [|intros [= _ <-]; now repeat split].
  destruct (hasIndexedDB env); [destruct (tf_save env lstmModel) as [[]|e4]|];
    cbn; discriminate.
Qed.

(** C6. When the body of real training throws, for whatever reason,
    [trainLSTM] itself returns normally, shows "Training failed: " followed
    by the error's text, clears the training flag, and leaves the model
    held before, the persisted flag and the stored entry as they were; when
    the reason is a series no longer than the lookback, the text is "Not
    enough data for the chosen lookback.". *)
Theorem liveTrain_failure_contained (env : Env) (w w1 : World) (err : Js.Error) :
  data w <> [] -> mockMode w = false -> tfAvailable w = true ->
  liveTrain_body env w (setLossHistory [] (setTraining true w)) = (Throw err, w1) ->
  let w' := world_after (trainLSTM env) w in
  ending (trainLSTM env) w = Ret tt
  /\ alerts w' = alerts w ++ [("Training failed: " ++ Js.error_text err)%string]
  /\ model w' = model w
  /\ persistedModel w' = persistedModel w
  /\ idbEntry w' = idbEntry w
  /\ training w' = false
  /\ (tf_import env = Ret tt ->
      Z.of_nat (length (data w)) <= lookback (lstmParams w) ->
      Js.error_text err = "Not enough data for the chosen lookback."%string).
Proof.
  intros Hdata Hmock Htf Hbody.
  destruct (liveTrain_body_throw_frame _ _ _ _ _ Hbody) as (Hm & Hp & Hi & Ha).
  unfold world_after, ending, trainLSTM.
  destruct (data w) as [|p rest] eqn:Ed; [congruence|]. cbn [length Nat.eqb].
  rewrite Hmock, Htf. cbn [orb negb].
  unfold liveTrain, try_finally, try_catch, bind, exec. rewrite Hbody. cbn.
  rewrite Hm, Hp, Hi, Ha. repeat split.
  intros Himport Hshort.
  rewrite liveTrain_body_short in Hbody
    by (try exact Himport; rewrite ?Ed; exact Hshort).
  now injection Hbody as <- _.
Qed.

Lemma liveTrain_failure_contained_witness :
  model march_ready_world = Some (TrainedModel 7%nat)
  /\ model (world_after (trainLSTM diverging_host) march_ready_world)
     = model march_ready_world
  /\ alerts (world_after (trainLSTM diverging_host) march_ready_world)
     = ["Training failed: loss is NaN"%string].
Proof.
  split; [reflexivity|].
  destruct (liveTrain_failure_contained diverging_host march_ready_world
              (setLossHistory [0.5%Q] (setTraining true march_ready_world))
              (Js.mkError "loss is NaN"))
    as (_ & Halerts & Hmodel & _);
    [discriminate|reflexivity|reflexivity|vm_compute; reflexivity|].
  split; [exact Hmodel|exact Halerts].
Defined.

(** ** Dates of a forecast *)

Lemma futureDates_fixed_offset (env : Env) (d : Day) (horizon : Z) :
  fixed_offset env ->
  futureDates env d horizon = days_after d (Z.to_nat horizon).
Proof.
  intros [c Hc]. unfold futureDates, days_after. rewrite map_map.
  apply map_ext. intros i. unfold Date_isoDay, Date_addDate, Date_of_day.
  rewrite !Hc.
  replace (d * Js.msPerDay + c + (Z.of_nat i + 1) * Js.msPerDay - c)
    with ((d + Z.of_nat i + 1) * Js.msPerDay) by ring.
  apply Z.div_mul. discriminate.
Qed.

Lemma days_after_length (d : Day) (n : nat) : length (days_after d n) = n.
Proof. unfold days_after. now rewrite length_map, length_seq. Qed.

Lemma days_after_nth (d : Day) (n k : nat) :
  (k < n)%nat -> nth_error (days_after d n) k = Some (d + Z.of_nat k + 1).
Proof.
  intros Hk. unfold days_after. rewrite nth_error_map.
  rewrite nth_error_nth' with (d := 0%nat) by (now rewrite length_seq).
  now rewrite seq_nth by exact Hk.
Qed.

Lemma forecast_points_dates (dates : list Day) (closes : list Q) :
  length closes = length dates ->
  map date (forecast_points dates closes) = dates
  /\ map close (forecast_points dates closes) = closes.
Proof.
  unfold forecast_points. revert closes.
  induction dates as [|d dates IH]; intros [|c closes] Hlen; try discriminate.
  - now split.
  - injection Hlen as Hlen. destruct (IH closes Hlen) as [Hd Hc].
    cbn. now rewrite Hd, Hc.
Qed.

Lemma last_point_last (d : list PricePoint) (dflt : PricePoint) :
  d <> [] -> last_point d = Ret (last d dflt).
Proof.
  intros Hne. destruct (exists_last Hne) as (init & p & ->).
  unfold last_point, Js.index. rewrite last_last, length_app. cbn [length].
  destruct (Z.ltb_spec (Z.of_nat (length init + 1) - 1) 0); [lia|].
  replace (Z.to_nat (Z.of_nat (length init + 1) - 1)) with (length init) by lia.
  now rewrite nth_error_app2, Nat.sub_diag by lia.
Qed.

(** ** Live prediction *)

Lemma slice_from_tl {A : Type} (arr : list A) : Js.slice_from arr 1 = tl arr.
Proof.
  unfold Js.slice_from, Js.slice, Js.slice_index.
  destruct arr as [|a rest]; [reflexivity|].
  cbn [tl length]. change (1 <? 0) with false.
  destruct (Z.ltb_spec (Z.of_nat (S (length rest))) 0); [lia|].
  rewrite Z.min_id, (Z.min_l 1) by lia.
  replace (Z.to_nat (Z.of_nat (S (length rest)) - 1)) with (length rest) by lia.
  change (Z.to_nat 1) with 1%nat. cbn [skipn]. apply firstn_all.
Qed.

Lemma slice_from_trailing {A : Type} (arr : list A) (L : Z) :
  1 <= L <= Z.of_nat (length arr) ->
  Js.slice_from arr (- L) = skipn (length arr - Z.to_nat L) arr.
Proof.
  intros HL. unfold Js.slice_from, Js.slice, Js.slice_index.
  destruct (Z.ltb_spec (- L) 0); [|lia].
  destruct (Z.ltb_spec (Z.of_nat (length arr)) 0); [lia|].
  rewrite Z.max_l, Z.min_id by lia.
  replace (Z.to_nat (Z.of_nat (length arr) + - L)) with (length arr - Z.to_nat L)%nat by lia.
  apply firstn_all2. rewrite length_skipn. lia.
Qed.

Lemma rollout_windows_length (env : Env) (m : TfModel) (n : nat) :
  forall window, length (rollout_windows env m n window) = n.
Proof. induction n as [|n IH]; intros window; cbn; [reflexivity|now rewrite IH]. Qed.

Lemma rollout_windows_width (env : Env) (m : TfModel) (n : nat) :
  forall window,
    window <> [] ->
    Forall (fun wk => length wk = length window) (rollout_windows env m n window).
Proof.
  induction n as [|n IH]; intros window Hne; cbn [rollout_windows]; constructor.
  - reflexivity.
  - destruct window as [|a rest]; [congruence|].
    assert (Hw : length (tl (a :: rest) ++ [answer env m (a :: rest)]) = length (a :: rest))
      by (cbn; rewrite length_app; cbn; lia).
    rewrite <- Hw. apply IH. cbn. now destruct rest.
Qed.

Lemma rollout_windows_next (env : Env) (m : TfModel) (n : nat) :
  forall window k wk,
    nth_error (rollout_windows env m n window) k = Some wk ->
    (S k < n)%nat ->
    nth_error (rollout_windows env m n window) (S k) =
    Some (tl wk ++ [answer env m wk]).
Proof.
  induction n as [|n IH]; intros window k wk Hk Hlt; [lia|].
  destruct k as [|k]; cbn [rollout_windows nth_error] in *.
  - injection Hk as <-. destruct n as [|n]; [lia|]. reflexivity.
  - apply IH; [exact Hk|lia].
Qed.

Lemma rollout_loop_trained (env : Env) (m : TfModel) (L : Z) (width : nat) :
  (1 <= width)%nat ->
  (forall input, length input = width -> tf_input env L input = Ret tt) ->
  (forall input, length input = width -> exists v, tf_predict env m input = Ret v) ->
  forall todo window preds w,
    length window = width ->
    rollout_loop env (TrainedModel m) L todo window preds w =
    (Ret (preds ++ map (answer env m) (rollout_windows env m todo window)),
     with_calls w (predictCalls w ++ rollout_windows env m todo window)).
Proof.
  intros Hpos Hinput Hpred. induction todo as [|todo IH]; intros window preds w Hwidth.
  - cbn. rewrite !app_nil_r. now destruct w.
  - cbn [rollout_loop rollout_windows map]. unfold bind at 1.
    unfold predict_step, bind, host, exec. rewrite (Hinput window Hwidth).
    assert (Hv : tf_predict env m window = Ret (answer env m window)).
    { unfold answer. destruct (Hpred window Hwidth) as [v Hv]. now rewrite Hv. }
    rewrite Hv, slice_from_tl, IH, <- !app_assoc.
    + unfold with_calls, logPredict. cbn. now rewrite <- app_assoc.
    + destruct window as [|a rest]; [cbn in Hwidth; lia|].
      rewrite <- Hwidth. cbn [tl]. rewrite length_app. cbn [length]. lia.
Qed.

Lemma denormalize_length (arr : list Q) (lo hi : Q) :
  length (denormalize arr lo hi) = length arr.
Proof. unfold denormalize. apply length_map. Qed.

Lemma futureDates_count (env : Env) (d : Day) (horizon : Z) :
  length (futureDates env d horizon) = Z.to_nat horizon.
Proof. unfold futureDates. now rewrite !length_map, length_seq. Qed.

Lemma futureDates_steady (env : Env) (d : Day) (horizon : Z) :
  steady_offset env d horizon ->
  futureDates env d horizon = days_after d (Z.to_nat horizon).
Proof.
  intros Hsteady. unfold futureDates, days_after. rewrite map_map.
  apply map_ext_in. intros i Hi. apply in_seq in Hi.
  unfold Date_isoDay, Date_addDate.
  rewrite (Hsteady (Z.of_nat i + 1)) by lia.
  replace (Date_of_day d + LocalTZA env (Date_of_day d) true
           + (Z.of_nat i + 1) * Js.msPerDay - LocalTZA env (Date_of_day d) true)
    with ((d + Z.of_nat i + 1) * Js.msPerDay) by (unfold Date_of_day; ring).
  apply Z.div_mul. discriminate.
Qed.

Lemma fixed_offset_steady (env : Env) (d : Day) (horizon : Z) :
  fixed_offset env -> steady_offset env d horizon.
Proof. intros [c Hc] i _. now rewrite !Hc. Qed.

(** The window the rollout starts from. *)
Lemma first_window (arr : list Q) (L : Z) :
  1 <= L ->
  Js.slice_from arr (- L) =
  if L <=? Z.of_nat (length arr) then skipn (length arr - Z.to_nat L) arr else arr.
Proof.
  intros HL. destruct (Z.leb_spec L (Z.of_nat (length arr))) as [Hfit|Hshort].
  - apply slice_from_trailing. lia.
  - unfold Js.slice_from, Js.slice, Js.slice_index.
    destruct (Z.ltb_spec (- L) 0); [|lia].
    destruct (Z.ltb_spec (Z.of_nat (length arr)) 0); [lia|].
    rewrite Z.max_r, Z.min_id by lia. rewrite Z.sub_0_r, Nat2Z.id.
    change (Z.to_nat 0) with 0%nat. cbn [skipn]. apply firstn_all.
Qed.

(** How the real path of [predictLSTM] gets to the rollout. *)
Lemma predictLSTM_resolved (env : Env) (w : World) (m : TfModel) (H : Z) :
  data w <> [] -> mockMode w = false -> tfAvailable w = true ->
  tf_import env = Ret tt ->
  (model w = Some (TrainedModel m)
   \/ (model w = None /\ indexedDBAvailable env = true /\ idbEntry w = Some m)) ->
  predictLSTM env H w =
  try_catch (rollout env (TrainedModel m) H w)
            (fun err => exec (alert ("Prediction failed: " ++ Js.error_text err)))
            (with_model_resolved w m).
Proof.
  intros Hdata Hmock Htf Himport Hmodel. unfold predictLSTM.
  destruct (data w) as [|p rest] eqn:Ed; [congruence|]. cbn [length Nat.eqb].
  rewrite Hmock, Htf. cbn [orb negb].
  unfold livePredict, try_catch, with_model_resolved. unfold bind at 1. unfold host at 1.
  rewrite Himport. unfold bind at 1.
  destruct Hmodel as [Hheld|(Hnone & Hidb & Hstored)].
  - unfold resolve_model. rewrite Hheld. reflexivity.
  - unfold resolve_model. rewrite Hnone, Hidb.
    unfold try_catch, bind, tf_loadLayersModel, exec, ret. rewrite Hstored. reflexivity.
Qed.

(** The rollout on an engine that takes windows of [width] values. *)
Lemma rollout_run (env : Env) (m : TfModel) (horizon : Z) (w0 w : World) (width : nat) :
  data w0 <> [] ->
  (1 <= width)%nat ->
  length (Js.slice_from (norm (normalize (map close (data w0))))
                        (- lookback (lstmParams w0))) = width ->
  (forall input, length input = width ->
                 tf_input env (lookback (lstmParams w0)) input = Ret tt) ->
  (forall input, length input = width -> exists v, tf_predict env m input = Ret v) ->
  let n := normalize (map close (data w0)) in
  let ws := rollout_windows env m (Z.to_nat horizon)
              (Js.slice_from (norm n) (- lookback (lstmParams w0))) in
  rollout env (TrainedModel m) horizon w0 w =
  (Ret tt,
   setPredictions
     (forecast_points
        (futureDates env (date (last (data w0) (mkPoint 0 0))) horizon)
        (denormalize (map (answer env m) ws) (min n) (max n)))
     (with_calls w (predictCalls w ++ ws))).
Proof.
  intros Hdata Hpos Hwidth Hinput Hpred n ws.
  unfold rollout. fold n. unfold bind at 1.
  rewrite (rollout_loop_trained env m _ width Hpos Hinput Hpred) by exact Hwidth.
  unfold bind, host, exec. now rewrite (last_point_last _ (mkPoint 0 0) Hdata).
Qed.

(** The rollout on an engine that refuses the first window. *)
Lemma rollout_refused (env : Env) (h : ModelHandle) (horizon : Z) (w0 w : World)
      (err : Js.Error) :
  1 <= horizon ->
  tf_input env (lookback (lstmParams w0))
           (Js.slice_from (norm (normalize (map close (data w0))))
                          (- lookback (lstmParams w0))) = Throw err ->
  rollout env h horizon w0 w = (Throw err, w).
Proof.
  intros HH Hrefuse. unfold rollout.
  destruct (Z.to_nat horizon) as [|todo] eqn:EH; [lia|]. cbn [rollout_loop].
  unfold predict_step, bind, host. now rewrite Hrefuse.
Qed.

Lemma with_model_resolved_frame (w : World) (m : TfModel) :
  predictCalls (with_model_resolved w m) = predictCalls w
  /\ predictions (with_model_resolved w m) = predictions w
  /\ alerts (with_model_resolved w m) = alerts w.
Proof. unfold with_model_resolved. now destruct (model w). Qed.

(** C3, amended. Let the component be on its real path, with data fetched
    and an engine that loads, and let the horizon be [H >= 1].

    When a trained model is held in memory or stored in IndexedDB, the
    series has at least [L >= 1] points for the lookback [L], and the
    engine shapes and answers every window of [L] values, [predictLSTM]
    asks the engine exactly [H] times; the first window is the last [L]
    normalized closes, every window has length [L], and each next window is
    the previous one without its oldest value and with the engine's answer
    appended; the [H] answers, denormalized with the minimum and maximum of
    the input closes, are the closes of the forecast, which has [H] points;
    and when the offset of the host does not change over the [H] days after
    the last known date, its dates are those [H] days.

    When no model is held and none is stored, [predictLSTM] does nothing.

    When a model is available but the series has fewer than [L] points,
    the window built is the whole normalized series: if the engine refuses
    to shape it, no forecast is left and "Prediction failed: " with the
    engine's text is shown; if the engine takes windows of that size, each
    of the [H] windows it is asked on has as many values as the series. *)
Theorem livePredict_rollout (env : Env) (w : World) (H : Z) :
  1 <= H ->
  data w <> [] -> mockMode w = false -> tfAvailable w = true ->
  tf_import env = Ret tt ->
  let L := lookback (lstmParams w) in
  let N := Z.of_nat (length (data w)) in
  let n := normalize (map close (data w)) in
  let lastDate := date (last (data w) (mkPoint 0 0)) in
  let w' := world_after (predictLSTM env H) w in
  let available := fun m : TfModel =>
    model w = Some (TrainedModel m)
    \/ (model w = None /\ indexedDBAvailable env = true /\ idbEntry w = Some m) in
  (forall m,
      available m -> 1 <= L <= N ->
      (forall input, Z.of_nat (length input) = L -> tf_input env L input = Ret tt) ->
      (forall input, Z.of_nat (length input) = L ->
                     exists v, tf_predict env m input = Ret v) ->
      ending (predictLSTM env H) w = Ret tt
      /\ exists ws vs,
          predictCalls w' = predictCalls w ++ ws
          /\ length ws = Z.to_nat H
          /\ length vs = Z.to_nat H
          /\ nth_error ws 0 = Some (skipn (length (data w) - Z.to_nat L) (norm n))
          /\ (forall k wk,
                nth_error ws k = Some wk ->
                Z.of_nat (length wk) = L
                /\ exists vk,
                    tf_predict env m wk = Ret vk
                    /\ nth_error vs k = Some vk
                    /\ ((S k < Z.to_nat H)%nat ->
                        nth_error ws (S k) = Some (tl wk ++ [vk])))
          /\ map close (predictions w') = denormalize vs (min n) (max n)
          /\ length (predictions w') = Z.to_nat H
          /\ (steady_offset env lastDate H ->
              map date (predictions w') = days_after lastDate (Z.to_nat H)
              /\ forall k, (k < Z.to_nat H)%nat ->
                           nth_error (map date (predictions w')) k
                           = Some (lastDate + Z.of_nat k + 1)))
  /\ (model w = None -> indexedDBAvailable env = false \/ idbEntry w = None ->
      predictLSTM env H w = (Ret tt, w))
  /\ (forall m,
        available m -> 1 <= L -> N < L ->
        Js.slice_from (norm n) (- L) = norm n
        /\ Z.of_nat (length (norm n)) = N
        /\ (forall err,
              tf_input env L (norm n) = Throw err ->
              ending (predictLSTM env H) w = Ret tt
              /\ predictions w' = predictions w
              /\ predictCalls w' = predictCalls w
              /\ alerts w' =
                 alerts w ++ [("Prediction failed: " ++ Js.error_text err)%string])
        /\ ((forall input, Z.of_nat (length input) = N -> tf_input env L input = Ret tt) ->
            (forall input, Z.of_nat (length input) = N ->
                           exists v, tf_predict env m input = Ret v) ->
            exists ws,
              predictCalls w' = predictCalls w ++ ws
              /\ length ws = Z.to_nat H
              /\ Forall (fun wk => Z.of_nat (length wk) = N) ws)).
Proof.
  intros HH Hdata Hmock Htf Himport L N n lastDate w' available.
  assert (Hn : length (norm n) = length (data w))
    by (unfold n; now rewrite normalize_length, length_map).
  assert (Hpos : (1 <= length (data w))%nat)
    by (destruct (data w); [congruence|cbn; lia]).
  split; [|split].
  - (* the rollout *)
    intros m Hmodel HL Hinput Hpred.
    set (window := Js.slice_from (norm n) (- L)).
    set (ws := rollout_windows env m (Z.to_nat H) window).
    set (forecast := forecast_points (futureDates env lastDate H)
                       (denormalize (map (answer env m) ws) (min n) (max n))).
    assert (Hwindow : window = skipn (length (data w) - Z.to_nat L) (norm n)).
    { unfold window. rewrite slice_from_trailing by (rewrite Hn; exact HL).
      now rewrite Hn. }
    assert (Hwidth : length window = Z.to_nat L).
    { rewrite Hwindow, length_skipn, Hn. unfold L, N in *. lia. }
    assert (Hrun : predictLSTM env H w =
                   (Ret tt, setPredictions forecast
                              (with_calls (with_model_resolved w m)
                                 (predictCalls (with_model_resolved w m) ++ ws)))).
    { rewrite (predictLSTM_resolved env w m H Hdata Hmock Htf Himport Hmodel).
      unfold try_catch.
      rewrite (rollout_run env m H w (with_model_resolved w m) (Z.to_nat L));
        try assumption; try reflexivity.
      - unfold L in *. lia.
      - intros input Hlen. apply Hinput. unfold L in *. lia.
      - intros input Hlen. apply Hpred. unfold L in *. lia. }
    destruct (with_model_resolved_frame w m) as (Hcalls & _ & _).
    assert (Hlen : length ws = Z.to_nat H) by apply rollout_windows_length.
    assert (Hmatch : length (denormalize (map (answer env m) ws) (min n) (max n))
                     = length (futureDates env lastDate H)).
    { now rewrite denormalize_length, length_map, futureDates_count. }
    destruct (forecast_points_dates _ _ Hmatch) as [Hdates Hcloses].
    fold forecast in Hdates, Hcloses.
    subst w'. unfold world_after, ending. rewrite Hrun. cbn [fst snd].
    split; [reflexivity|]. exists ws, (map (answer env m) ws).
    cbn [predictCalls predictions setPredictions with_calls].
    rewrite Hcalls, Hcloses, length_map, Hlen.
    split; [reflexivity|]. split; [reflexivity|]. split; [reflexivity|].
    split. { unfold ws. destruct (Z.to_nat H) eqn:EH; [lia|]. now rewrite <- Hwindow. }
    split.
    { intros k wk Hk.
      assert (Hwk : Z.of_nat (length wk) = L).
      { assert (Hne : window <> [])
          by (intros E; rewrite E in Hwidth; cbn in Hwidth; unfold L in *; lia).
        pose proof (rollout_windows_width env m (Z.to_nat H) window Hne) as Hall.
        rewrite Forall_forall in Hall. apply nth_error_In in Hk.
        rewrite (Hall wk Hk), Hwidth. unfold L in *. lia. }
      split; [exact Hwk|].
      exists (answer env m wk). split; [|split].
      - unfold answer. destruct (Hpred wk Hwk) as [v Hv]. now rewrite Hv.
      - now rewrite nth_error_map, Hk.
      - intros Hlt. now apply rollout_windows_next. }
    split; [reflexivity|].
    split.
    { rewrite <- (length_map date forecast), Hdates. apply futureDates_count. }
    intros Hsteady. rewrite Hdates, (futureDates_steady _ _ _ Hsteady).
    split; [reflexivity|]. intros k Hk. now apply days_after_nth.
  - (* no model *)
    intros Hnone Hstore. unfold predictLSTM.
    destruct (data w) as [|p rest] eqn:Ed; [congruence|]. cbn [length Nat.eqb].
    rewrite Hmock, Htf. cbn [orb negb].
    unfold livePredict, try_catch, resolve_model. rewrite Hnone.
    unfold bind at 1. unfold host at 1. rewrite Himport. unfold bind at 1.
    destruct Hstore as [Hidb|Hentry].
    + now rewrite Hidb.
    + destruct (indexedDBAvailable env); [|reflexivity].
      unfold try_catch, bind, tf_loadLayersModel. now rewrite Hentry.
  - (* a short series *)
    intros m Hmodel HL Hshort.
    assert (Hwhole : Js.slice_from (norm n) (- L) = norm n).
    { rewrite first_window by exact HL. rewrite Hn. fold N.
      destruct (Z.leb_spec L N); [lia|reflexivity]. }
    split; [exact Hwhole|]. split; [now rewrite Hn|].
    destruct (with_model_resolved_frame w m) as (Hcalls & Hpreds & Halerts).
    split.
    + intros err Hrefuse. subst w'. unfold world_after, ending.
      rewrite (predictLSTM_resolved env w m H Hdata Hmock Htf Himport Hmodel).
      unfold try_catch. rewrite (rollout_refused env _ H w _ err HH).
      * cbn. now rewrite Hcalls, Hpreds, Halerts.
      * fold n L. now rewrite Hwhole.
    + intros Hinput Hpred. subst w'. unfold world_after.
      rewrite (predictLSTM_resolved env w m H Hdata Hmock Htf Himport Hmodel).
      unfold try_catch.
      rewrite (rollout_run env m H w (with_model_resolved w m) (length (data w)));
        try assumption.
      * cbn [snd predictCalls setPredictions with_calls]. rewrite Hcalls.
        eexists. split; [reflexivity|]. split; [apply rollout_windows_length|].
        fold n L. rewrite Hwhole.
        assert (Hne : norm n <> []) by (intros E; rewrite E in Hn; cbn in Hn; lia).
        pose proof (rollout_windows_width env m (Z.to_nat H) (norm n) Hne) as Hall.
        eapply Forall_impl; [|exact Hall]. cbv beta. intros wk ->. now rewrite Hn.
      * fold n L. now rewrite Hwhole.
      * intros input Hlen. apply Hinput. unfold N. now rewrite Hlen.
      * intros input Hlen. apply Hpred. unfold N. now rewrite Hlen.
Qed.

Lemma fixed_host_offset (offset : Z) : fixed_offset (fixed_host offset).
Proof. now exists offset. Qed.

Lemma berlin_steady_three_days : steady_offset berlin_host 19810 3.
Proof.
  intros i Hi. assert (Hcases : i = 1 \/ i = 2 \/ i = 3) by lia.
  destruct Hcases as [-> | [-> | ->]]; reflexivity.
Qed.

Lemma livePredict_rollout_witness :
  1 <= 3
  /\ data march_ready_world <> []
  /\ lookback (lstmParams march_ready_world) = 2
  /\ map date (predictions (world_after (predictLSTM berlin_host 3) march_ready_world))
     = days_after 19810 3.
Proof.
  split; [lia|]. split; [discriminate|]. split; [reflexivity|].
  destruct (livePredict_rollout berlin_host march_ready_world 3)
    as (Hrollout & _); [lia|discriminate|reflexivity|reflexivity|reflexivity|].
  destruct (Hrollout 7%nat) as (_ & ws & vs & _ & _ & _ & _ & _ & _ & _ & Hdates).
  - now left.
  - cbn. lia.
  - intros input Hwidth. cbn in *. now rewrite Hwidth.
  - intros input _. eexists. reflexivity.
  - now apply Hdates, berlin_steady_three_days.
Defined.

(** C3 as stated fails in two ways that the code intends.  With the engine
    enabled but no model held and no IndexedDB, predicting five days asks
    the engine nothing and leaves no forecast, silently.  With a model
    held, the default lookback of 20 and three closes fetched, the window
    built for the first step has three values, not twenty; the engine
    refuses to shape it, no forecast is left and the failure is shown. *)
Lemma livePredict_without_model_or_history :
  (model march_live_world = None
   /\ predictCalls (world_after (predictLSTM private_host 5) march_live_world) = []
   /\ predictions (world_after (predictLSTM private_host 5) march_live_world) = []
   /\ alerts (world_after (predictLSTM private_host 5) march_live_world) = [])
  /\ (model march_trained_world = Some (TrainedModel 7%nat)
      /\ lookback (lstmParams march_trained_world) = 20
      /\ length (Js.slice_from (norm (normalize (map close (data march_trained_world))))
                               (- lookback (lstmParams march_trained_world))) = 3%nat
      /\ predictions (world_after (predictLSTM private_host 5) march_trained_world) = []
      /\ alerts (world_after (predictLSTM private_host 5) march_trained_world)
         = ["Prediction failed: Size must match the product of shape"%string]).
Proof. vm_compute. repeat split. Qed.

(** ** Mock prediction *)

Lemma mock_prices_S (env : Env) (last : Q) (i : Z) (d n : nat) :
  mock_prices env last i d (S n) =
  mock_price env last i (Math_random env d) :: mock_prices env last (i + 1) (S d) n.
Proof.
  unfold mock_prices. rewrite map_seq_S, Z.add_0_r, Nat.add_0_r. f_equal.
  apply map_ext. intros k.
  replace (i + Z.of_nat (S k)) with (i + 1 + Z.of_nat k) by lia.
  now replace (d + S k)%nat with (S d + k)%nat by lia.
Qed.

Lemma mockPredict_loop_prices (env : Env) (last : Q) (todo : nat) :
  forall i preds w,
    mockPredict_loop env last todo i preds w =
    (preds ++ mock_prices env last i (randomCalls w) todo,
     with_draws w (randomCalls w + todo)).
Proof.
  induction todo as [|todo IH]; intros i preds w.
  - cbn. rewrite app_nil_r, Nat.add_0_r. now destruct w.
  - cbn [mockPredict_loop random]. rewrite IH, mock_prices_S, <- app_assoc.
    cbn [app randomCalls]. unfold with_draws; cbn.
    now rewrite Nat.add_succ_r.
Qed.

Lemma mock_prices_length (env : Env) (last : Q) (i : Z) (d n : nat) :
  length (mock_prices env last i d n) = n.
Proof. unfold mock_prices. now rewrite length_map, length_seq. Qed.

Lemma mock_prices_nth (env : Env) (last : Q) (i : Z) (d n k : nat) :
  (k < n)%nat ->
  nth_error (mock_prices env last i d n) k =
  Some (mock_price env last (i + Z.of_nat k) (Math_random env (d + k))).
Proof.
  intros Hk. unfold mock_prices. rewrite nth_error_map.
  rewrite nth_error_nth' with (d := 0%nat) by (now rewrite length_seq).
  now rewrite seq_nth by exact Hk.
Qed.

Lemma jitter_bounds (r : Q) : (0 <= r < 1 -> 0 <= r * 0.5 < 0.5)%Q.
Proof.
  intros [Hlo Hhi]. unfold Qle, Qlt in *. cbn in *. lia.
Qed.

(** Without data [mockPredict] does nothing. *)
Lemma mockPredict_no_data (env : Env) (horizon : Z) (w : World) :
  data w = [] -> mockPredict env horizon w = (Ret tt, w).
Proof. intros Hd. unfold mockPredict. now rewrite Hd. Qed.

(** On a host whose offset from UTC is fixed, [mockPredict] leaves one
    point per step [i] of the horizon, priced from the last close [P] as
    [P + (sin i + noise) * (P * 0.01)] with a noise in [0, 0.5) and dated
    [i] days after the last known date. *)
Lemma mockPredict_forecast (env : Env) (horizon : Z) (w : World) :
  data w <> [] ->
  fixed_offset env ->
  (forall k, 0 <= Math_random env k < 1)%Q ->
  let P := close (last (data w) (mkPoint 0 0)) in
  let D := date (last (data w) (mkPoint 0 0)) in
  let w' := world_after (mockPredict env horizon) w in
  ending (mockPredict env horizon) w = Ret tt
  /\ length (predictions w') = Z.to_nat horizon
  /\ map date (predictions w') = days_after D (Z.to_nat horizon)
  /\ (forall i, 1 <= i <= horizon ->
      exists noise,
        (0 <= noise < 0.5)%Q
        /\ nth_error (predictions w') (Z.to_nat (i - 1)) =
           Some (mkPoint (D + i)
                         (P + (Math_sin env (inject_Z i) + noise) * (P * 0.01))%Q)).
Proof.
  intros Hdata Hoff Hrandom P D w'.
  set (prices := mock_prices env P 1 (randomCalls w) (Z.to_nat horizon)).
  assert (Hrun : mockPredict env horizon w =
                 (Ret tt,
                  alert "Mock predictions generated."
                    (setPredictions
                       (forecast_points (days_after D (Z.to_nat horizon)) prices)
                       (with_draws w (randomCalls w + Z.to_nat horizon))))).
  { assert (Hlen : (length (data w) =? 0)%nat = false)
      by (destruct (data w); [congruence|reflexivity]).
    unfold mockPredict. rewrite Hlen. unfold bind, host, exec.
    rewrite (last_point_last _ (mkPoint 0 0) Hdata), mockPredict_loop_prices.
    cbn [app]. now rewrite (futureDates_fixed_offset _ _ _ Hoff). }
  assert (Hmatch : length prices = length (days_after D (Z.to_nat horizon)))
    by (unfold prices; now rewrite mock_prices_length, days_after_length).
  destruct (forecast_points_dates _ _ Hmatch) as [Hdates Hcloses].
  subst w'. unfold world_after, ending. rewrite Hrun. cbn [fst snd].
  cbn [predictions alert setPredictions].
  set (forecast := forecast_points (days_after D (Z.to_nat horizon)) prices) in *.
  split; [reflexivity|]. split; [|split; [exact Hdates|]].
  { rewrite <- (length_map date forecast), Hdates. apply days_after_length. }
  intros i Hi.
  exists (Math_random env (randomCalls w + Z.to_nat (i - 1)) * 0.5)%Q.
  split; [apply jitter_bounds, Hrandom|].
  assert (Hd : nth_error (map date forecast) (Z.to_nat (i - 1)) = Some (D + i)).
  { rewrite Hdates, days_after_nth by lia. f_equal. lia. }
  assert (Hc : nth_error (map close forecast) (Z.to_nat (i - 1)) =
               Some (mock_price env P i (Math_random env (randomCalls w + Z.to_nat (i - 1))))).
  { rewrite Hcloses. unfold prices. rewrite mock_prices_nth by lia.
    do 2 f_equal. lia. }
  rewrite nth_error_map in Hd, Hc.
  destruct (nth_error forecast (Z.to_nat (i - 1))) as [[d c]|]; [|discriminate].
  cbn in Hd, Hc. injection Hd as ->. injection Hc as ->. reflexivity.
Qed.

(** C8 on a host that observes summer time.  In Central European time,
    with the last close dated 2024-03-28 (day 19810), the five forecast
    dates are 03-29, 03-30, 03-31, 03-31 again and 04-01: [setDate] moves
    the local date, [toISOString] prints the UTC one, and the local
    midnight-plus-one-hour of 04-01 is 23:00 UTC of 03-31. *)
Theorem mockPredict_repeats_a_date :
  date (last (data march_world) (mkPoint 0 0)) = 19810
  /\ map date (predictions (world_after (mockPredict berlin_host 5) march_world))
     = [19811; 19812; 19813; 19813; 19814].
Proof. vm_compute. now split. Qed.

(** The real path dates its forecast with the same code. *)
Lemma livePredict_repeats_a_date :
  map date (predictions (world_after (predictLSTM berlin_host 5) march_ready_world))
  = [19811; 19812; 19813; 19813; 19814].
Proof. vm_compute. reflexivity. Qed.

Lemma mockPredict_forecast_witness :
  data march_world <> []
  /\ map date (predictions (world_after (mockPredict (fixed_host (-18000000)) 5) march_world))
     = [19811; 19812; 19813; 19814; 19815].
Proof.
  split; [discriminate|].
  destruct (mockPredict_forecast (fixed_host (-18000000)) 5 march_world)
    as (_ & _ & Hdates & _).
  - discriminate.
  - apply fixed_host_offset.
  - exact sample_random_unit.
  - exact Hdates.
Defined.

(** ** The mode selector is only changed on purpose *)

Section KeepsMode.

Context {A B : Type}.

Lemma keeps_mode_ret (a : A) : keeps_mode (ret a).
Proof. now intros w. Qed.

Lemma keeps_mode_throw (err : Js.Error) : keeps_mode (throw (A := A) err).
Proof. now intros w. Qed.

Lemma keeps_mode_host (r : outcome A) : keeps_mode (host r).
Proof. now intros w. Qed.

Lemma keeps_mode_bind (c : M A) (k : A -> M B) :
  keeps_mode c -> (forall a, keeps_mode (k a)) -> keeps_mode (bind c k).
Proof.
  intros Hc Hk w. unfold bind. specialize (Hc w).
  destruct (c w) as [[a|err] w1]; cbn [snd] in *; [|exact Hc].
  destruct (Hk a w1) as [Hm Ht]. destruct Hc as [Hm1 Ht1].
  now rewrite Hm, Ht.
Qed.

Lemma keeps_mode_try_catch (body : M A) (handler : Js.Error -> M A) :
  keeps_mode body -> (forall err, keeps_mode (handler err)) ->
  keeps_mode (try_catch body handler).
Proof.
  intros Hb Hh w. unfold try_catch. specialize (Hb w).
  destruct (body w) as [[a|err] w1]; cbn [snd] in *; [exact Hb|].
  destruct (Hh err w1) as [Hm Ht]. destruct Hb as [Hm1 Ht1].
  now rewrite Hm, Ht.
Qed.

Lemma keeps_mode_try_finally (body : M A) (final : World -> World) :
  keeps_mode body -> beside_mode final -> keeps_mode (try_finally body final).
Proof.
  intros Hb Hf w. unfold try_finally. specialize (Hb w).
  destruct (body w) as [r w1]; cbn [snd] in *.
  destruct (Hf w1) as [Hm Ht]. destruct Hb as [Hm1 Ht1]. now rewrite Hm, Ht.
Qed.

End KeepsMode.

Lemma keeps_mode_exec (f : World -> World) : beside_mode f -> keeps_mode (exec f).
Proof. intros Hf w. exact (Hf w). Qed.

Ltac beside_mode := intros ?w; split; reflexivity.


Ltac keeps_mode :=
  repeat first
    [ apply keeps_mode_ret | apply keeps_mode_throw | apply keeps_mode_host
    | apply keeps_mode_exec; beside_mode
    | apply keeps_mode_bind; [|intros ?a]
    | apply keeps_mode_try_catch; [|intros ?err]
    | apply keeps_mode_try_finally; [|beside_mode] ].








(** ** Enabling the engine *)


(** * Further properties of the component *)

(** ** The range of the normalizer *)

Lemma fold_min_le_acc (rest : list Q) :
  forall acc, (fold_left Qmin rest acc <= acc)%Q.
Proof.
  induction rest as [|y rest IH]; intros acc; simpl.
  - apply Qle_refl.
  - eapply Qle_trans; [apply IH|apply Q.le_min_l].
Qed.

Lemma fold_min_le_in (rest : list Q) :
  forall acc v, In v rest -> (fold_left Qmin rest acc <= v)%Q.
Proof.
  induction rest as [|y rest IH]; intros acc v Hin; simpl; [contradiction|].
  destruct Hin as [<-|Hin].
  - eapply Qle_trans; [apply fold_min_le_acc|apply Q.le_min_r].
  - now apply IH.
Qed.

Lemma fold_max_ge_acc (rest : list Q) :
  forall acc, (acc <= fold_left Qmax rest acc)%Q.
Proof.
  induction rest as [|y rest IH]; intros acc; simpl.
  - apply Qle_refl.
  - eapply Qle_trans; [apply Q.le_max_l|apply IH].
Qed.

Lemma fold_max_ge_in (rest : list Q) :
  forall acc v, In v rest -> (v <= fold_left Qmax rest acc)%Q.
Proof.
  induction rest as [|y rest IH]; intros acc v Hin; simpl; [contradiction|].
  destruct Hin as [<-|Hin].
  - eapply Qle_trans; [apply Q.le_max_r|apply fold_max_ge_acc].
  - now apply IH.
Qed.

Lemma fold_min_attained (rest : list Q) :
  forall acc, exists v, In v (acc :: rest) /\ (fold_left Qmin rest acc == v)%Q.
Proof.
  induction rest as [|y rest IH]; intros acc; simpl.
  - exists acc. split; [now left|reflexivity].
  - destruct (IH (Qmin acc y)) as (v & [Hv|Hv] & Heq).
    + subst v. destruct (Q.min_dec acc y) as [Hm|Hm].
      * exists acc. split; [now left|now apply (Qeq_trans _ _ _ Heq)].
      * exists y. split; [right; now left|now apply (Qeq_trans _ _ _ Heq)].
    + exists v. split; [right; now right|exact Heq].
Qed.

Lemma fold_max_attained (rest : list Q) :
  forall acc, exists v, In v (acc :: rest) /\ (fold_left Qmax rest acc == v)%Q.
Proof.
  induction rest as [|y rest IH]; intros acc; simpl.
  - exists acc. split; [now left|reflexivity].
  - destruct (IH (Qmax acc y)) as (v & [Hv|Hv] & Heq).
    + subst v. destruct (Q.max_dec acc y) as [Hm|Hm].
      * exists acc. split; [now left|now apply (Qeq_trans _ _ _ Heq)].
      * exists y. split; [right; now left|now apply (Qeq_trans _ _ _ Heq)].
    + exists v. split; [right; now right|exact Heq].
Qed.

Lemma Math_min_le (x : list Q) (v : Q) : In v x -> (Js.Math_min x <= v)%Q.
Proof.
  destruct x as [|c rest]; [contradiction|]. intros [<-|Hin]; cbn [Js.Math_min].
  - apply fold_min_le_acc.
  - now apply fold_min_le_in.
Qed.

Lemma Math_max_ge (x : list Q) (v : Q) : In v x -> (v <= Js.Math_max x)%Q.
Proof.
  destruct x as [|c rest]; [contradiction|]. intros [<-|Hin]; cbn [Js.Math_max].
  - apply fold_max_ge_acc.
  - now apply fold_max_ge_in.
Qed.

(** The minimum and the maximum [normalize] reports are values of the
    series and bound every value of it. *)
Theorem normalize_stats_attained (x : list Q) :
  x <> [] ->
  (exists lo, In lo x /\ (min (normalize x) == lo)%Q)
  /\ (exists hi, In hi x /\ (max (normalize x) == hi)%Q)
  /\ (forall v, In v x -> min (normalize x) <= v <= max (normalize x))%Q.
Proof.
  intros Hne. destruct x as [|c rest]; [congruence|].
  split; [apply fold_min_attained|]. split; [apply fold_max_attained|].
  intros v Hv. split; [now apply Math_min_le|now apply Math_max_ge].
Qed.

Lemma normalize_stats_attained_witness :
  [100; 104; 102]%Q <> []
  /\ exists lo, In lo [100; 104; 102]%Q /\ (min (normalize [100; 104; 102]%Q) == lo)%Q.
Proof.
  split; [discriminate|].
  apply (normalize_stats_attained [100; 104; 102]%Q). discriminate.
Defined.

Lemma Forall2_map_self {A B : Type} (R : A -> B -> Prop) (f : A -> B) (l : list A) :
  (forall a, In a l -> R a (f a)) -> Forall2 R l (map f l).
Proof.
  induction l as [|a l IH]; intros H; cbn [map]; constructor.
  - apply H. now left.
  - apply IH. intros b Hb. apply H. now right.
Qed.

(** Value by value, in the order of the series: every normalized value
    lies between 0 and 1, a value equal to the minimum is sent to 0 and,
    unless all values are equal, a value equal to the maximum is sent to 1;
    and a value that is not smaller than another is not sent below it. *)
Theorem normalize_unit_interval (x : list Q) :
  x <> [] ->
  let n := normalize x in
  Forall2 (fun v u =>
             (0 <= u <= 1)%Q
             /\ ((v == min n)%Q -> (u == 0)%Q)
             /\ (~ (max n == min n)%Q -> (v == max n)%Q -> (u == 1)%Q))
          x (norm n)
  /\ (forall i j vi vj ui uj,
        nth_error x i = Some vi -> nth_error x j = Some vj ->
        nth_error (norm n) i = Some ui -> nth_error (norm n) j = Some uj ->
        (vi <= vj)%Q -> (ui <= uj)%Q).
Proof.
  intros Hne n.
  assert (Hlo : forall v, In v x -> (min n <= v)%Q) by (intros v; apply Math_min_le).
  assert (Hhi : forall v, In v x -> (v <= max n)%Q) by (intros v; apply Math_max_ge).
  assert (Hnorm : norm n = map (fun v => (v - min n) / Js.num_or (max n - min n) 1)%Q x)
    by reflexivity.
  assert (Hr : (0 < Js.num_or (max n - min n) 1)%Q
               /\ (max n - min n <= Js.num_or (max n - min n) 1)%Q
               /\ (~ (max n == min n)%Q ->
                   Js.num_or (max n - min n) 1 = (max n - min n)%Q)).
  { destruct x as [|c rest]; [congruence|].
    assert (Hc : (min n <= max n)%Q)
      by (eapply Qle_trans; [apply (Hlo c)|apply (Hhi c)]; now left).
    unfold Js.num_or. destruct (Qeq_bool (max n - min n) 0) eqn:E.
    - apply Qeq_bool_iff in E. split; [reflexivity|]. split; [rewrite E; discriminate|].
      intros Hd. exfalso. apply Hd. lra.
    - apply Qeq_bool_neq in E. split; [lra|]. split; [apply Qle_refl|reflexivity]. }
  destruct Hr as (Hpos & Hrange & Hprop).
  rewrite Hnorm. split.
  - apply Forall2_map_self. intros v Hv.
    specialize (Hlo v Hv). specialize (Hhi v Hv). split; [split|split].
    + apply Qle_shift_div_l; [exact Hpos|lra].
    + apply Qle_shift_div_r; [exact Hpos|lra].
    + intros Heq. rewrite Heq. field. lra.
    + intros Hd Heq. rewrite (Hprop Hd), Heq. field. lra.
  - intros i j vi vj ui uj Hi Hj Hui Huj Hle.
    rewrite nth_error_map, Hi in Hui. rewrite nth_error_map, Hj in Huj.
    injection Hui as <-. injection Huj as <-.
    unfold Qdiv. apply Qmult_le_compat_r; [lra|].
    apply Qinv_le_0_compat, Qlt_le_weak, Hpos.
Qed.

Lemma normalize_unit_interval_witness :
  [100; 104; 102]%Q <> []
  /\ Forall2 (fun v u =>
                (0 <= u <= 1)%Q
                /\ ((v == min (normalize [100; 104; 102]%Q))%Q -> (u == 0)%Q)
                /\ (~ (max (normalize [100; 104; 102]%Q)
                        == min (normalize [100; 104; 102]%Q))%Q ->
                    (v == max (normalize [100; 104; 102]%Q))%Q -> (u == 1)%Q))
             [100; 104; 102]%Q (norm (normalize [100; 104; 102]%Q)).
Proof.
  split; [discriminate|].
  apply (normalize_unit_interval [100; 104; 102]%Q). discriminate.
Defined.

(** ** Windows slide by one *)

Lemma firstn_S_nth {A : Type} (L : nat) :
  forall (l : list A) (a : A),
    nth_error l L = Some a -> firstn (S L) l = firstn L l ++ [a].
Proof.
  induction L as [|L IH]; intros l a Hn; destruct l as [|b l]; try discriminate.
  - cbn in *. now injection Hn as ->.
  - cbn [nth_error] in Hn.
    change (firstn (S (S L)) (b :: l)) with (b :: firstn (S L) l).
    change (firstn (S L) (b :: l)) with (b :: firstn L l).
    cbn [app]. f_equal. now apply IH.
Qed.

Lemma firstn_tl_slide {A : Type} (L : nat) (l : list A) (a : A) :
  nth_error l (S L) = Some a ->
  firstn (S L) (tl l) = tl (firstn (S L) l) ++ [a].
Proof.
  destruct l as [|b l]; [discriminate|]. cbn [nth_error tl firstn].
  apply firstn_S_nth.
Qed.

Lemma nth_error_seq_in (n k : nat) :
  (k < n)%nat -> nth_error (seq 0 n) k = Some k.
Proof.
  intros Hk. rewrite nth_error_nth' with (d := 0%nat) by (now rewrite length_seq).
  now rewrite seq_nth.
Qed.

(** Consecutive training windows overlap: for a lookback [L >= 1], window
    [i + 1] is window [i] without its first value, followed by the target
    of window [i]. *)
Theorem windows_slide (series : list Q) (L i : Z) :
  1 <= L -> 0 <= i -> i + 1 < Z.of_nat (length series) - L ->
  exists win target,
    nth_error (fst (build_windows series L)) (Z.to_nat i) = Some win
    /\ nth_error (snd (build_windows series L)) (Z.to_nat i) = Some (Some target)
    /\ nth_error (fst (build_windows series L)) (Z.to_nat (i + 1))
       = Some (tl win ++ [target]).
Proof.
  intros HL Hi Hfit. rewrite build_windows_map. cbn [fst snd].
  destruct (index_inside series (i + L)) as (target & Hidx & Hnth); [lia|].
  exists (Js.slice series i (i + L)), target.
  rewrite !nth_error_map, !nth_error_seq_in by lia. cbn [option_map].
  rewrite !Z2Nat.id by lia. split; [reflexivity|]. split; [now rewrite Hidx|].
  f_equal. rewrite !slice_inside by lia.
  replace (Z.to_nat (i + 1)) with (S (Z.to_nat i)) by lia.
  replace (Z.to_nat L) with (S (Z.to_nat L - 1)) by lia.
  rewrite <- (firstn_tl_slide _ (skipn (Z.to_nat i) series) target).
  - f_equal. clear. generalize (Z.to_nat i) as k. intros k. revert series.
    induction k as [|k IH]; intros [|a series]; try reflexivity.
    cbn [skipn]. rewrite <- IH. now destruct series.
  - rewrite nth_error_skipn. rewrite <- Hnth. f_equal. lia.
Qed.

Lemma windows_slide_witness :
  1 <= 2 /\ 0 <= 0 /\ 0 + 1 < Z.of_nat (length [1; 2; 3; 4; 5]%Q) - 2
  /\ nth_error (fst (build_windows [1; 2; 3; 4; 5]%Q 2)) 1 = Some [2; 3]%Q.
Proof.
  destruct (windows_slide [1; 2; 3; 4; 5]%Q 2 0) as (win & target & Hw & Ht & Hnext);
    [lia|lia|cbn; lia|].
  split; [lia|]. split; [lia|]. split; [cbn; lia|].
  change (Z.to_nat (0 + 1)) with 1%nat in Hnext. rewrite Hnext. clear Hnext. cbn in Hw, Ht.
  injection Hw as <-. injection Ht as <-. reflexivity.
Defined.

(** ** Real training that succeeds *)

Lemma onEpochEnd_all_trace (losses : list Q) :
  forall lossArr w,
    lossHistory w = lossArr ->
    onEpochEnd_all losses lossArr w =
    (lossArr ++ losses, with_trace w (lossArr ++ losses) (randomCalls w)).
Proof.
  induction losses as [|loss rest IH]; intros lossArr w Hinv; cbn [onEpochEnd_all].
  - now rewrite app_nil_r, <- Hinv, with_trace_same.
  - rewrite IH by reflexivity. now rewrite <- app_assoc.
Qed.

(** What real training leaves when nothing fails. *)
Lemma liveTrain_run (env : Env) (w : World) (m : TfModel) (losses : list Q) :
  data w <> [] -> mockMode w = false -> tfAvailable w = true ->
  tf_import env = Ret tt ->
  lookback (lstmParams w) < Z.of_nat (length (data w)) ->
  let windows := build_windows (norm (normalize (map close (data w))))
                               (lookback (lstmParams w)) in
  tf_tensors env (fst windows) (snd windows) (lookback (lstmParams w)) = Ret tt ->
  tf_build env (lstmParams w) = Ret m ->
  tf_fit env m (fst windows) (snd windows) (lstmParams w) = (losses, Ret tt) ->
  let w' := world_after (trainLSTM env) w in
  ending (trainLSTM env) w = Ret tt
  /\ model w' = Some (TrainedModel m)
  /\ lossHistory w' = losses
  /\ training w' = false
  /\ alerts w' = alerts w ++ ["Training complete (real TF)."%string]
  /\ (indexedDBAvailable env = true -> tf_save env m = Ret tt ->
      idbEntry w' = Some m /\ persistedModel w' = true)
  /\ (indexedDBAvailable env = false \/ (exists err, tf_save env m = Throw err) ->
      idbEntry w' = idbEntry w /\ persistedModel w' = persistedModel w)
  /\ data w' = data w /\ predictions w' = predictions w.
Proof.
  intros Hdata Hmock Htf Himport Hlong windows Htensors Hbuild Hfit.
  assert (Hsome : (length (fst windows) =? 0)%nat = false).
  { unfold windows. rewrite build_windows_map. cbn [fst].
    rewrite length_map, length_seq, normalize_length, length_map.
    apply Nat.eqb_neq. lia. }
  unfold world_after, ending, trainLSTM.
  destruct (data w) as [|p rest] eqn:Ed; [congruence|]. cbn [length Nat.eqb].
  rewrite Hmock, Htf. cbn [orb negb].
  unfold liveTrain, try_finally, try_catch, liveTrain_body. rewrite Ed.
  fold windows. destruct windows as [xs ys]. cbn [fst snd] in *.
  unfold bind, host, exec, fit, throw, ret, indexedDBAvailable.
  rewrite Himport, Hsome, Htensors, Hbuild, Hfit.
  rewrite onEpochEnd_all_trace by reflexivity.
  destruct (hasIndexedDB env); [destruct (tf_save env m) as [[]|e] eqn:Es|];
    cbn; repeat split; intros; try discriminate; try reflexivity;
    repeat match goal with
           | H : _ \/ _ |- _ => destruct H
           | H : exists _, _ |- _ => destruct H
           end; try discriminate; try congruence.
Qed.

(** When nothing fails, real training leaves the model the engine built as
    current model, the losses [fit] reported as loss trace, the training
    flag cleared and "Training complete (real TF)." shown.  The model is
    stored and the persisted flag set when IndexedDB exists and the save
    succeeds; otherwise training succeeds all the same, and the stored
    entry and the flag stay as they were. *)
Theorem liveTrain_success (env : Env) (w : World) (m : TfModel) (losses : list Q) :
  data w <> [] -> mockMode w = false -> tfAvailable w = true ->
  tf_import env = Ret tt ->
  lookback (lstmParams w) < Z.of_nat (length (data w)) ->
  let windows := build_windows (norm (normalize (map close (data w))))
                               (lookback (lstmParams w)) in
  tf_tensors env (fst windows) (snd windows) (lookback (lstmParams w)) = Ret tt ->
  tf_build env (lstmParams w) = Ret m ->
  tf_fit env m (fst windows) (snd windows) (lstmParams w) = (losses, Ret tt) ->
  let w' := world_after (trainLSTM env) w in
  ending (trainLSTM env) w = Ret tt
  /\ model w' = Some (TrainedModel m)
  /\ lossHistory w' = losses
  /\ training w' = false
  /\ alerts w' = alerts w ++ ["Training complete (real TF)."%string]
  /\ (indexedDBAvailable env = true -> tf_save env m = Ret tt ->
      idbEntry w' = Some m /\ persistedModel w' = true)
  /\ (indexedDBAvailable env = false \/ (exists err, tf_save env m = Throw err) ->
      idbEntry w' = idbEntry w /\ persistedModel w' = persistedModel w)
  /\ data w' = data w /\ predictions w' = predictions w.
Proof. exact (liveTrain_run env w m losses). Qed.

Lemma liveTrain_success_witness :
  data march_ready_world <> []
  /\ model (world_after (trainLSTM readonly_host) march_ready_world)
     = Some (TrainedModel 7%nat)
  /\ lossHistory (world_after (trainLSTM readonly_host) march_ready_world)
     = [0.5; 0.25]%Q.
Proof.
  split; [discriminate|].
  destruct (liveTrain_success readonly_host march_ready_world 7%nat [0.5; 0.25]%Q)
    as (_ & Hmodel & Hloss & _);
    [discriminate|reflexivity|reflexivity|reflexivity|cbn; lia
    |reflexivity|reflexivity|reflexivity|].
  split; [exact Hmodel|exact Hloss].
Defined.

(** ** Enabling the engine restores what was stored *)

(** What [enableTensorFlow] leaves when the engine loads. *)
Lemma enableTensorFlow_run (env : Env) (w : World) :
  tf_import env = Ret tt ->
  let w' := world_after (enableTensorFlow env) w in
  mockMode w' = false /\ tfAvailable w' = true
  /\ (forall m, indexedDBAvailable env = true -> idbEntry w = Some m ->
      model w' = Some (TrainedModel m) /\ persistedModel w' = true)
  /\ (indexedDBAvailable env = false \/ idbEntry w = None ->
      model w' = model w /\ persistedModel w' = persistedModel w)
  /\ idbEntry w' = idbEntry w /\ data w' = data w /\ predictions w' = predictions w
  /\ lstmParams w' = lstmParams w.
Proof.
  intros Himport.
  unfold world_after, enableTensorFlow, try_catch, bind, host, exec, ret,
    indexedDBAvailable, tf_loadLayersModel.
  rewrite Himport.
  destruct (hasIndexedDB env); destruct (idbEntry w) as [stored|] eqn:Eidb;
    cbn; rewrite ?Eidb; cbn; repeat split; intros;
    repeat match goal with H : _ \/ _ |- _ => destruct H end;
    try discriminate; congruence.
Qed.

(** When the engine loads, [enableTensorFlow] turns mock mode off and the
    engine flag on.  A model stored in IndexedDB becomes the current model
    and the persisted flag is set; when there is none, or no IndexedDB, the
    current model, even the marker of mock training, and the flag are left
    as they were. *)
Theorem enableTensorFlow_success (env : Env) (w : World) :
  tf_import env = Ret tt ->
  let w' := world_after (enableTensorFlow env) w in
  mockMode w' = false /\ tfAvailable w' = true
  /\ (forall m, indexedDBAvailable env = true -> idbEntry w = Some m ->
      model w' = Some (TrainedModel m) /\ persistedModel w' = true)
  /\ (indexedDBAvailable env = false \/ idbEntry w = None ->
      model w' = model w /\ persistedModel w' = persistedModel w)
  /\ idbEntry w' = idbEntry w /\ data w' = data w /\ predictions w' = predictions w
  /\ lstmParams w' = lstmParams w.
Proof. exact (enableTensorFlow_run env w). Qed.

Lemma enableTensorFlow_success_witness :
  tf_import (fixed_host 0) = Ret tt
  /\ model (world_after (enableTensorFlow (fixed_host 0))
                        (setIdbEntry (Some 7%nat) march_world))
     = Some (TrainedModel 7%nat).
Proof.
  split; [reflexivity|].
  destruct (enableTensorFlow_success (fixed_host 0) (setIdbEntry (Some 7%nat) march_world))
    as (_ & _ & Hload & _); [reflexivity|].
  now apply Hload.
Defined.

(** A trained model survives a reload of the page: after real training that
    stored its model, a freshly mounted component holds no model and is in
    mock mode, and enabling the engine makes the stored model current
    again. *)
Theorem trained_model_survives_reload (env : Env) (p : Page) (m : TfModel)
        (losses : list Q) :
  data (world p) <> [] -> mockMode (world p) = false -> tfAvailable (world p) = true ->
  tf_import env = Ret tt ->
  lookback (lstmParams (world p)) < Z.of_nat (length (data (world p))) ->
  let windows := build_windows (norm (normalize (map close (data (world p)))))
                               (lookback (lstmParams (world p))) in
  tf_tensors env (fst windows) (snd windows) (lookback (lstmParams (world p))) = Ret tt ->
  tf_build env (lstmParams (world p)) = Ret m ->
  tf_fit env m (fst windows) (snd windows) (lstmParams (world p)) = (losses, Ret tt) ->
  indexedDBAvailable env = true -> tf_save env m = Ret tt ->
  let trained := snd (inWorld (trainLSTM env) p) in
  let fresh := initial_page trained in
  let enabled := snd (inWorld (enableTensorFlow env) fresh) in
  model (world fresh) = None /\ mockMode (world fresh) = true
  /\ data (world fresh) = []
  /\ model (world enabled) = Some (TrainedModel m)
  /\ persistedModel (world enabled) = true
  /\ mockMode (world enabled) = false /\ tfAvailable (world enabled) = true.
Proof.
  intros Hdata Hmock Htf Himport Hlong windows Htensors Hbuild Hfit Hidb Hsave
         trained fresh enabled.
  destruct (liveTrain_run env (world p) m losses Hdata Hmock Htf Himport Hlong
                          Htensors Hbuild Hfit)
    as (_ & _ & _ & _ & _ & Hstored & _).
  destruct (Hstored Hidb Hsave) as [Hentry _].
  assert (Hfresh : idbEntry (world fresh) = Some m).
  { subst fresh trained. unfold inWorld, world_after in *.
    destruct (trainLSTM env (world p)) as [r w1]. exact Hentry. }
  destruct (enableTensorFlow_run env (world fresh) Himport)
    as (Hm & Ht & Hload & _).
  destruct (Hload m Hidb Hfresh) as [Hmodel Hflag].
  subst enabled. unfold inWorld, world_after in *.
  destruct (enableTensorFlow env (world fresh)) as [r w3]. cbn [snd world onWorld] in *.
  repeat split; assumption || reflexivity.
Qed.

Lemma trained_model_survives_reload_witness :
  data (world sample_page) <> []
  /\ model (world (snd (inWorld (enableTensorFlow (fixed_host 0))
                               (initial_page (snd (inWorld (trainLSTM (fixed_host 0))
                                                           sample_page))))))
     = Some (TrainedModel 7%nat).
Proof.
  split; [discriminate|].
  destruct (trained_model_survives_reload (fixed_host 0) sample_page 7%nat [0.5; 0.25]%Q)
    as (_ & _ & _ & Hmodel & _);
    [discriminate|reflexivity|reflexivity|reflexivity|cbn; lia
    |reflexivity|reflexivity|reflexivity|reflexivity|reflexivity|].
  exact Hmodel.
Defined.

(** ** The marker of mock training is no model for the engine *)

Lemma predict_with_marker (env : Env) (w : World) (stamp H : Z) :
  data w <> [] -> mockMode w = false -> tfAvailable w = true ->
  tf_import env = Ret tt ->
  model w = Some (MockModel stamp) ->
  1 <= H ->
  predictLSTM env H w =
  (Ret tt,
   alert ("Prediction failed: "
            ++ match tf_input env (lookback (lstmParams w))
                       (Js.slice_from (norm (normalize (map close (data w))))
                                      (- lookback (lstmParams w))) with
               | Ret _ => "useModel.predict is not a function"
               | Throw err => Js.error_text err
               end) w).
Proof.
  intros Hdata Hmock Htf Himport Hmodel HH. unfold predictLSTM.
  destruct (data w) as [|p rest] eqn:Ed; [congruence|]. cbn [length Nat.eqb].
  rewrite Hmock, Htf. cbn [orb negb].
  unfold livePredict, try_catch, resolve_model. rewrite Hmodel.
  unfold bind at 1. unfold host at 1. rewrite Himport.
  unfold bind at 1. unfold ret at 1. unfold rollout.
  destruct (Z.to_nat H) as [|todo] eqn:EH; [lia|]. cbn [rollout_loop].
  unfold predict_step, bind, host, throw, exec. rewrite ?Ed.
  now destruct (tf_input env _ _) as [[]|err].
Qed.

(** After mock training, enabling an engine that finds no stored model
    leaves the mock marker as current model in real mode; predicting then
    runs the real path and fails, which is caught and leaves the forecast
    and the model as they were.  When the engine shapes the first window,
    the failure is the marker's missing method and "Prediction failed:
    useModel.predict is not a function" is shown; when the engine refuses
    the window, as it does on a series shorter than the lookback, the text
    shown is the engine's. *)
Theorem mock_marker_cannot_predict (env : Env) (w : World) (H : Z) :
  data w <> [] ->
  mockMode w = true \/ tfAvailable w = false ->
  tf_import env = Ret tt ->
  indexedDBAvailable env = false \/ idbEntry w = None ->
  1 <= H ->
  let trained := world_after (trainLSTM env) w in
  let enabled := world_after (enableTensorFlow env) trained in
  let predicted := world_after (predictLSTM env H) enabled in
  let shaped :=
    tf_input env (lookback (lstmParams w))
             (Js.slice_from (norm (normalize (map close (data w))))
                            (- lookback (lstmParams w))) in
  (exists stamp, model enabled = Some (MockModel stamp))
  /\ model enabled = model trained
  /\ mockMode enabled = false /\ tfAvailable enabled = true
  /\ ending (predictLSTM env H) enabled = Ret tt
  /\ predictions predicted = predictions w
  /\ model predicted = model enabled
  /\ (shaped = Ret tt ->
      alerts predicted =
      alerts enabled ++ ["Prediction failed: useModel.predict is not a function"%string])
  /\ (forall err,
        shaped = Throw err ->
        alerts predicted =
        alerts enabled ++ [("Prediction failed: " ++ Js.error_text err)%string]).
Proof.
  intros Hdata Hmode Himport Hstore HH trained enabled predicted shaped.
  assert (Htrained : trained =
                     alert "Mock training complete (TF not required)."
                       (setTraining false
                          (setPersistedModel false
                             (setModel (Some (MockModel (clock w)))
                                (snd (mockTrain_progress env (Z.to_nat (mock_epochs w)) w)))))).
  { subst trained. unfold world_after, trainLSTM.
    destruct (data w) as [|p rest] eqn:Ed; [congruence|]. cbn [length Nat.eqb].
    replace (mockMode w || negb (tfAvailable w)) with true
      by (destruct Hmode as [-> | ->]; [reflexivity|now rewrite orb_true_r]).
    now rewrite mockTrain_world. }
  rewrite mockTrain_progress_trace in Htrained. cbn [snd] in Htrained.
  assert (Hsame : data trained = data w /\ lstmParams trained = lstmParams w
                  /\ predictions trained = predictions w
                  /\ idbEntry trained = idbEntry w
                  /\ model trained = Some (MockModel (clock w)))
    by (rewrite Htrained; now repeat split).
  destruct Hsame as (Hd & Hp & Hf & Hi & Hm).
  destruct (enableTensorFlow_run env trained Himport)
    as (Eoff & Eon & _ & Ekeep & _ & Ed & Ef & Ep).
  destruct Ekeep as [Emodel _];
    [destruct Hstore as [Hs|Hs]; [now left|right; now rewrite Hi]|].
  fold enabled in Eoff, Eon, Ed, Ef, Ep, Emodel.
  assert (Hrun : predictLSTM env H enabled =
                 (Ret tt,
                  alert ("Prediction failed: "
                           ++ match shaped with
                              | Ret _ => "useModel.predict is not a function"
                              | Throw err => Js.error_text err
                              end) enabled)).
  { rewrite (predict_with_marker env enabled (clock w) H); try assumption.
    - subst shaped. now rewrite Ep, Hp, Ed, Hd.
    - now rewrite Ed, Hd.
    - now rewrite Emodel. }
  subst predicted. unfold world_after, ending. rewrite Hrun. cbn [fst snd].
  cbn [predictions model alerts alert].
  split; [exists (clock w); now rewrite Emodel|]. split; [exact Emodel|].
  split; [exact Eoff|]. split; [exact Eon|]. split; [reflexivity|].
  split; [now rewrite Ef|]. split; [reflexivity|].
  split; [intros ->; reflexivity|intros err ->; reflexivity].
Qed.

Lemma mock_marker_cannot_predict_witness :
  data (setLstmParams (mkParams 2 50 30 8 0.001) march_world) <> []
  /\ alerts (world_after (predictLSTM private_host 5)
               (world_after (enableTensorFlow private_host)
                  (world_after (trainLSTM private_host)
                     (setLstmParams (mkParams 2 50 30 8 0.001) march_world))))
     = ["Mock training complete (TF not required)."%string;
        "TensorFlow.js loaded. Mock mode disabled."%string;
        "Prediction failed: useModel.predict is not a function"%string].
Proof.
  split; [discriminate|].
  destruct (mock_marker_cannot_predict private_host
              (setLstmParams (mkParams 2 50 30 8 0.001) march_world) 5)
    as (_ & _ & _ & _ & _ & _ & _ & Halerts & _);
    [discriminate|now left|reflexivity|now left|lia|].
  rewrite Halerts by reflexivity. vm_compute. reflexivity.
Defined.

(** ** Exporting and importing a model *)

(** [exportModel] never throws and changes nothing: it only shows one
    alert.  Without a model the alert is "Train a model first.", whatever
    the mode; with the marker of mock training held in real mode the export
    fails on the marker; and the alert reports an export exactly when a
    real model is held, mock mode is off, the engine flag is on, the engine
    loads and the download succeeds. *)
Theorem exportModel_reports (env : Env) (out : Outside) (w : World) :
  exists text,
    exportModel env out w = (Ret tt, alert text w)
    /\ (model w = None -> text = "Train a model first."%string)
    /\ (forall stamp,
          model w = Some (MockModel stamp) -> mockMode w = false ->
          tfAvailable w = true -> tf_import env = Ret tt ->
          text = "Export failed: model.save is not a function"%string)
    /\ (text = "Model exported as files (JSON + weights)."%string <->
        exists m,
          model w = Some (TrainedModel m) /\ mockMode w = false
          /\ tfAvailable w = true /\ tf_import env = Ret tt
          /\ tf_download out m = Ret tt).
Proof.
  unfold exportModel, try_catch, bind, host, exec, model_save, throw.
  destruct (model w) as [[stamp|m]|]; destruct (mockMode w); destruct (tfAvailable w);
    cbn [orb negb]; destruct (tf_import env) as [[]|e0];
    try destruct (tf_download out m) as [[]|e1] eqn:Ed;
    eexists; (split; [reflexivity|]); cbn;
    (split; [intros; try discriminate; reflexivity|]);
    (split; [intros; try discriminate; try congruence; reflexivity|]);
    (split; [intros Ht; try discriminate Ht|intros (m' & Hm & Hmock & Htf & Hi & Hd);
                                             try discriminate; try congruence]);
    try (exists m; now repeat split);
    try (injection Hm as <-; congruence).
Qed.

(** [importModel] never throws.  Without files it only shows "Import
    failed: No files selected", even in mock mode; with files in mock mode
    it only shows "Cannot import model while in mock mode."; and the
    current model changes only when files were given, mock mode is off and
    the engine loads. *)
Theorem importModel_guards (env : Env) (out : Outside) (files : option (list string))
        (w : World) :
  ending (importModel env out files) w = Ret tt
  /\ (no_files files = true ->
      importModel env out files w =
      (Ret tt, alert "Import failed: No files selected" w))
  /\ (no_files files = false -> mockMode w = true ->
      importModel env out files w =
      (Ret tt, alert "Cannot import model while in mock mode." w))
  /\ (model (world_after (importModel env out files) w) <> model w ->
      no_files files = false /\ mockMode w = false /\ tf_import env = Ret tt).
Proof.
  unfold world_after, ending, importModel, try_catch, bind, host, exec, throw, ret,
    indexedDBAvailable.
  destruct (no_files files); destruct (mockMode w);
    destruct (tf_import env) as [[]|e0];
    try destruct (tf_loadFiles out _) as [loaded|e1];
    try destruct (hasIndexedDB env); try destruct (tf_save env _) as [[]|e2];
    cbn; repeat split; intros; try discriminate; try reflexivity; try congruence.
Qed.

(** An import with files, outside mock mode, on an engine that loads and
    reads the files makes the model of the files the current one, whether
    or not the engine flag is on, and shows "Model imported and saved to
    browser storage (if available).".  The model is stored and the
    persisted flag set when IndexedDB exists and the save succeeds;
    otherwise the import succeeds all the same and the stored entry and the
    flag stay as they were. *)
Theorem importModel_success (env : Env) (out : Outside) (names : list string)
        (w : World) (m : TfModel) :
  names <> [] -> mockMode w = false -> tf_import env = Ret tt ->
  tf_loadFiles out names = Ret m ->
  let w' := world_after (importModel env out (Some names)) w in
  model w' = Some (TrainedModel m)
  /\ alerts w' =
     alerts w ++ ["Model imported and saved to browser storage (if available)."%string]
  /\ (indexedDBAvailable env = true -> tf_save env m = Ret tt ->
      idbEntry w' = Some m /\ persistedModel w' = true)
  /\ (indexedDBAvailable env = false \/ (exists err, tf_save env m = Throw err) ->
      idbEntry w' = idbEntry w /\ persistedModel w' = persistedModel w)
  /\ mockMode w' = false /\ tfAvailable w' = tfAvailable w
  /\ data w' = data w /\ predictions w' = predictions w.
Proof.
  intros Hnames Hmock Himport Hload.
  unfold world_after, importModel, try_catch, bind, host, exec, throw, ret,
    indexedDBAvailable, no_files.
  destruct names as [|name names]; [congruence|]. cbn [length Nat.ltb Nat.leb].
  rewrite Hmock, Himport, Hload.
  destruct (hasIndexedDB env); [destruct (tf_save env m) as [[]|e] eqn:Es|];
    cbn; rewrite ?Hmock; repeat split; intros; try discriminate; try reflexivity;
    repeat match goal with
           | H : _ \/ _ |- _ => destruct H
           | H : exists _, _ |- _ => destruct H
           end; try discriminate; try congruence.
Qed.

Lemma importModel_success_witness :
  ["model.json"; "weights.bin"]%string <> []
  /\ model (world_after (importModel private_host sample_outside
                                     (Some ["model.json"; "weights.bin"]%string))
                        (setMockMode false march_world))
     = Some (TrainedModel 9%nat).
Proof.
  split; [discriminate|].
  destruct (importModel_success private_host sample_outside
              ["model.json"; "weights.bin"]%string (setMockMode false march_world) 9%nat)
    as (Hmodel & _); [discriminate|reflexivity|reflexivity|reflexivity|].
  exact Hmodel.
Defined.

(** ** The chart *)

Lemma line_data_same (t : PointType) (points : list PricePoint) :
  line_data t (map (tagged t) points) = map (tagged t) points.
Proof.
  unfold line_data. induction points as [|d points IH]; [reflexivity|].
  cbn [map filter]. replace (is_type t (tagged t d)) with true by now destruct t.
  now rewrite IH.
Qed.

Lemma line_data_other (t u : PointType) (points : list PricePoint) :
  t <> u -> line_data t (map (tagged u) points) = [].
Proof.
  intros Hne. unfold line_data. induction points as [|d points IH]; [reflexivity|].
  cbn [map filter].
  replace (is_type t (tagged u d)) with false by (destruct t, u; cbn; congruence).
  exact IH.
Qed.

(** The two lines of the chart take the merged series apart again: the
    "Actual" line gets exactly the fetched closes and the "Predicted" line
    exactly the forecast, each in its order; and the chart is hidden only
    when there is neither data nor a forecast. *)
Theorem chartData_lines (w : World) :
  line_data history (chartData w) = map (tagged history) (data w)
  /\ line_data prediction (chartData w) = map (tagged prediction) (predictions w)
  /\ length (chartData w) = (length (data w) + length (predictions w))%nat
  /\ (chart_shown w = false <-> data w = [] /\ predictions w = []).
Proof.
  unfold chart_shown, chartData. split; [|split; [|split]].
  - unfold line_data. rewrite filter_app.
    fold (line_data history (map (tagged history) (data w))).
    fold (line_data history (map (tagged prediction) (predictions w))).
    rewrite line_data_same, line_data_other by discriminate. apply app_nil_r.
  - unfold line_data. rewrite filter_app.
    fold (line_data prediction (map (tagged history) (data w))).
    fold (line_data prediction (map (tagged prediction) (predictions w))).
    now rewrite line_data_same, line_data_other by discriminate.
  - now rewrite length_app, !length_map.
  - rewrite length_app, !length_map.
    destruct (data w); destruct (predictions w); cbn; split;
      intros; try discriminate; try reflexivity; try (now split);
      destruct H; discriminate.
Qed.

(** ** Fetching the series *)

Lemma parse_series_ascending (series : list (Day * Q)) :
  descending series -> ascending (parse_series series).
Proof.
  intros Hdesc i j p q Hij Hp Hq. unfold parse_series in Hp, Hq.
  rewrite nth_error_rev, length_map in Hp, Hq.
  destruct (Nat.ltb_spec i (length series)); [|discriminate].
  destruct (Nat.ltb_spec j (length series)); [|discriminate].
  rewrite nth_error_map in Hp, Hq.
  destruct (nth_error series (length series - S i)) as [e|] eqn:Ee; [|discriminate].
  destruct (nth_error series (length series - S j)) as [f|] eqn:Ef; [|discriminate].
  injection Hp as <-. injection Hq as <-. cbn [date].
  apply (Hdesc (length series - S j)%nat (length series - S i)%nat f e); [lia|assumption..].
Qed.

(** A fetch that fails, because the request throws or the answer holds no
    time series, returns normally, shows "Failed to fetch stock data. Check
    your API key or symbol.", clears the loading flag and keeps the series,
    the forecast and the settings fetched before. *)
Theorem fetchStockData_failure (out : Outside) (p : Page) :
  (exists err, axios_get out (symbol p) (apiKey p) = Throw err)
  \/ axios_get out (symbol p) (apiKey p) = Ret None ->
  let p' := snd (fetchStockData out p) in
  fst (fetchStockData out p) = Ret tt
  /\ world p' =
     alert "Failed to fetch stock data. Check your API key or symbol." (world p)
  /\ data (world p') = data (world p)
  /\ loading p' = false
  /\ symbol p' = symbol p /\ apiKey p' = apiKey p
  /\ rememberSettings p' = rememberSettings p.
Proof.
  intros Hfail.
  unfold fetchStockData, bindP, execP, try_finallyP, try_catchP, hostP, throwP, retP,
    inWorld, exec.
  destruct (rememberSettings p) eqn:Er; cbn;
    destruct Hfail as [[err Hf]|Hf]; rewrite Hf; cbn; rewrite ?Er; now repeat split.
Qed.

Lemma fetchStockData_failure_witness :
  axios_get silent_outside (symbol sample_page) (apiKey sample_page) = Ret None
  /\ data (world (snd (fetchStockData silent_outside sample_page)))
     = data (world sample_page).
Proof.
  split; [reflexivity|].
  destruct (fetchStockData_failure silent_outside sample_page) as (_ & _ & Hdata & _);
    [now right|exact Hdata].
Defined.

(** A fetch that is answered with a time series replaces the series by the
    entries of the answer in reverse order, so an answer listing the newest
    day first gives closes in ascending order of dates without repeats; it
    shows nothing, clears the loading flag, and leaves the forecast and the
    model of the previous series in place. *)
Theorem fetchStockData_success (out : Outside) (p : Page) (series : list (Day * Q)) :
  axios_get out (symbol p) (apiKey p) = Ret (Some series) ->
  let p' := snd (fetchStockData out p) in
  fst (fetchStockData out p) = Ret tt
  /\ world p' = setData (parse_series series) (world p)
  /\ map date (data (world p')) = rev (map fst series)
  /\ map close (data (world p')) = rev (map snd series)
  /\ (descending series -> ascending (data (world p')))
  /\ predictions (world p') = predictions (world p)
  /\ model (world p') = model (world p)
  /\ alerts (world p') = alerts (world p)
  /\ loading p' = false.
Proof.
  intros Hok.
  assert (Hrun : world (snd (fetchStockData out p)) = setData (parse_series series) (world p)
                 /\ fst (fetchStockData out p) = Ret tt
                 /\ loading (snd (fetchStockData out p)) = false).
  { unfold fetchStockData, bindP, execP, try_finallyP, try_catchP, hostP, throwP, retP.
    destruct (rememberSettings p) eqn:Er; cbn; rewrite Hok; cbn; now repeat split. }
  destruct Hrun as (Hworld & Hend & Hload). cbv zeta. rewrite Hworld.
  split; [exact Hend|]. split; [reflexivity|]. cbn [data setData].
  unfold parse_series. rewrite !map_rev, !map_map. cbn [date close].
  split; [reflexivity|]. split; [reflexivity|].
  split; [intros Hd; fold (parse_series series); now apply parse_series_ascending|].
  now repeat split.
Qed.

Lemma fetchStockData_success_witness :
  axios_get sample_outside (symbol sample_page) (apiKey sample_page)
  = Ret (Some [(19810, 102%Q); (19809, 104%Q); (19808, 100%Q)])
  /\ map date (data (world (snd (fetchStockData sample_outside sample_page))))
     = [19808; 19809; 19810].
Proof.
  split; [reflexivity|].
  destruct (fetchStockData_success sample_outside sample_page
              [(19810, 102%Q); (19809, 104%Q); (19808, 100%Q)])
    as (_ & _ & Hdates & _); [reflexivity|exact Hdates].
Defined.

(** ** Settings across reloads *)

Lemma eqb_other (k key : string) : k <> key -> String.eqb k key = false.
Proof. intros H. now apply String.eqb_neq. Qed.

(** What a fetch leaves in the preference store, however the request ends. *)
Lemma fetchStockData_store (out : Outside) (p : Page) :
  localStorage (snd (fetchStockData out p)) =
  if rememberSettings p
  then setItem "lastApiKey" (apiKey p) (setItem "lastSymbol" (symbol p) (localStorage p))
  else localStorage p.
Proof.
  unfold fetchStockData, bindP, execP, try_finallyP, try_catchP, hostP, throwP, retP,
    inWorld, exec.
  destruct (rememberSettings p) eqn:Er; cbn;
    destruct (axios_get out (symbol p) (apiKey p)) as [[series|]|err]; reflexivity.
Qed.

(** With "Remember settings" on, a fetch stores the symbol and the key
    before the request is made, so also when the request fails; with it
    off, a fetch stores nothing.  No fetch touches another entry. *)
Theorem fetchStockData_remembers (out : Outside) (p : Page) :
  let store := localStorage (snd (fetchStockData out p)) in
  (rememberSettings p = true ->
   getItem store "lastSymbol" = Some (symbol p)
   /\ getItem store "lastApiKey" = Some (apiKey p))
  /\ (rememberSettings p = false ->
      forall key, getItem store key = getItem (localStorage p) key)
  /\ (forall key, key <> "lastSymbol"%string -> key <> "lastApiKey"%string ->
      getItem store key = getItem (localStorage p) key).
Proof.
  cbv zeta. rewrite fetchStockData_store. split; [|split].
  - intros ->. now split.
  - intros ->. reflexivity.
  - intros key Hs Hk. destruct (rememberSettings p); [|reflexivity].
    unfold getItem, setItem. now rewrite (eqb_other _ _ Hs), (eqb_other _ _ Hk).
Qed.

Lemma item_or_stored (store : Storage) (key value dflt : string) :
  item_or (setItem key value store) key dflt =
  if String.eqb value "" then dflt else value.
Proof. unfold item_or, getItem, setItem. now rewrite String.eqb_refl. Qed.

(** A symbol and a key remembered by a fetch come back when the page is
    loaded again: the key as it was, the symbol as it was unless it was
    empty, in which case the page starts on "AAPL". *)
Theorem remembered_settings_come_back (out : Outside) (p : Page) :
  rememberSettings p = true ->
  let fresh := initial_page (snd (fetchStockData out p)) in
  apiKey fresh = apiKey p
  /\ symbol fresh = (if truthy (symbol p) then symbol p else "AAPL"%string).
Proof.
  intros Hr. cbv zeta. unfold initial_page. cbn [apiKey symbol].
  rewrite fetchStockData_store, Hr. split.
  - rewrite item_or_stored. destruct (String.eqb_spec (apiKey p) ""); congruence.
  - unfold item_or, getItem, setItem, truthy. cbn.
    now destruct (String.eqb (symbol p) "").
Qed.

Lemma remembered_settings_come_back_witness :
  rememberSettings sample_page = true
  /\ symbol (initial_page (snd (fetchStockData sample_outside sample_page))) = "MSFT"%string.
Proof.
  split; [reflexivity|].
  destruct (remembered_settings_come_back sample_outside sample_page) as [_ Hs];
    [reflexivity|exact Hs].
Defined.

(** The "Remember settings" box comes back as it was left when the page is
    loaded again.  Clearing it forgets nothing: the symbol and the key
    stored before stay in the preference store, and the next load still
    starts from them. *)
Theorem handleRememberToggle_round_trip (checked : bool) (p : Page) :
  let p' := snd (handleRememberToggle checked p) in
  fst (handleRememberToggle checked p) = Ret tt
  /\ rememberSettings p' = checked
  /\ rememberSettings (initial_page p') = checked
  /\ getItem (localStorage p') "lastSymbol" = getItem (localStorage p) "lastSymbol"
  /\ getItem (localStorage p') "lastApiKey" = getItem (localStorage p) "lastApiKey"
  /\ symbol (initial_page p') = symbol (initial_page p)
  /\ apiKey (initial_page p') = apiKey (initial_page p).
Proof.
  unfold handleRememberToggle, bindP, execP, initial_page, item_or, getItem, setItem.
  cbn. repeat split. now destruct checked.
Qed.

(** ** Resetting, and mounting again *)

(** Run in the world it was rendered from, the handler of one render is
    [deletePersistedModel]. *)
Lemma deletePersistedModel_of_self (env : Env) (w : World) :
  deletePersistedModel_of env w w = deletePersistedModel env w.
Proof.
  unfold deletePersistedModel_of, deletePersistedModel.
  destruct (negb (indexedDBAvailable env)); [reflexivity|].
  now destruct (mockMode w).
Qed.

Lemma resetAllSettings_store (env : Env) (p : Page) :
  localStorage (snd (resetAllSettings env p)) =
  if String.eqb (theme p) "light" then clear else setItem "theme" "light" clear.
Proof.
  unfold resetAllSettings, bindP, execP, changeTheme, try_catchP, inWorld, retP.
  cbn [theme setRememberSettings setApiKey setSymbol onStorage].
  destruct (String.eqb (theme p) "light"); cbn;
    destruct (deletePersistedModel_of env (world p) _) as [[[]|err] w1]; reflexivity.
Qed.

Lemma resetAllSettings_world (env : Env) (p : Page) :
  fst (resetAllSettings env p) = Ret tt
  /\ world (snd (resetAllSettings env p)) =
     alert "All settings reset to default."
       (snd (deletePersistedModel_of env (world p)
               (setTfAvailable false (setMockMode true (world p)))))
  /\ symbol (snd (resetAllSettings env p)) = "AAPL"%string
  /\ apiKey (snd (resetAllSettings env p)) = ""%string
  /\ rememberSettings (snd (resetAllSettings env p)) = false
  /\ theme (snd (resetAllSettings env p)) = "light"%string.
Proof.
  unfold resetAllSettings, bindP, execP, changeTheme, try_catchP, inWorld, retP, exec.
  cbn [theme setRememberSettings setApiKey setSymbol onStorage].
  destruct (String.eqb_spec (theme p) "light") as [Et|Et]; cbn;
    destruct (deletePersistedModel_of env (world p) _) as [[[]|err] w1];
    cbn; now repeat split.
Qed.

(** "Reset All" never throws and ends with "All settings reset to
    default.": the symbol is "AAPL" again, the key empty, "Remember
    settings" off, the theme light, mock mode on and the engine flag off,
    and the preference store holds nothing but, at most, the theme; the
    series and the forecast stay.  The deletion it attempts still tests the
    mock mode the page was in when the button was pressed: from mock mode
    the stored model, the current model and the persisted flag all survive
    the reset, while from real mode, when the engine loads and removes the
    entry, they are cleared. *)
Theorem resetAllSettings_result (env : Env) (p : Page) :
  let p' := snd (resetAllSettings env p) in
  fst (resetAllSettings env p) = Ret tt
  /\ (symbol p' = "AAPL" /\ apiKey p' = "" /\ theme p' = "light")%string
  /\ rememberSettings p' = false
  /\ mockMode (world p') = true /\ tfAvailable (world p') = false
  /\ (forall key, key <> "theme"%string -> getItem (localStorage p') key = None)
  /\ (exists shown,
        alerts (world p') =
        alerts (world p) ++ [shown; "All settings reset to default."%string])
  /\ data (world p') = data (world p) /\ predictions (world p') = predictions (world p)
  /\ (mockMode (world p) = true ->
      idbEntry (world p') = idbEntry (world p)
      /\ model (world p') = model (world p)
      /\ persistedModel (world p') = persistedModel (world p))
  /\ (mockMode (world p) = false -> indexedDBAvailable env = true ->
      tf_import env = Ret tt -> tf_removeModel env = Ret tt ->
      idbEntry (world p') = None /\ model (world p') = None
      /\ persistedModel (world p') = false).
Proof.
  cbv zeta.
  destruct (resetAllSettings_world env p) as (Hend & Hworld & Hs & Hk & Hr & Ht).
  rewrite Hworld, Hs, Hk, Hr, Ht, resetAllSettings_store.
  split; [exact Hend|]. split; [now repeat split|]. split; [reflexivity|].
  assert (Hstore : forall key, key <> "theme"%string ->
                     getItem (if String.eqb (theme p) "light" then clear
                              else setItem "theme" "light" clear) key = None).
  { intros key Hkey. destruct (String.eqb (theme p) "light"); [reflexivity|].
    unfold getItem, setItem. now rewrite (eqb_other _ _ Hkey). }
  unfold deletePersistedModel_of, try_catch, bind, host, exec, indexedDBAvailable.
  destruct (hasIndexedDB env); destruct (mockMode (world p));
    destruct (tf_import env) as [[]|e1]; destruct (tf_removeModel env) as [[]|e2];
    cbn; (repeat split; try exact Hstore;
          try (eexists; rewrite <- app_assoc; reflexivity));
    intros; try discriminate; try reflexivity.
Qed.

(** After "Reset All" the next load of the page starts from the defaults. *)
Theorem reset_then_reload_defaults (env : Env) (p : Page) :
  let fresh := initial_page (snd (resetAllSettings env p)) in
  (symbol fresh = "AAPL" /\ apiKey fresh = "" /\ theme fresh = "light")%string
  /\ rememberSettings fresh = false
  /\ mockMode (world fresh) = true /\ tfAvailable (world fresh) = false
  /\ data (world fresh) = [] /\ model (world fresh) = None.
Proof.
  cbv zeta. unfold initial_page. rewrite resetAllSettings_store.
  destruct (String.eqb (theme p) "light"); cbn; now repeat split.
Qed.

Lemma fetchStockData_returns (out : Outside) (p : Page) :
  fst (fetchStockData out p) = Ret tt.
Proof.
  unfold fetchStockData, bindP, execP, try_finallyP, try_catchP, hostP, throwP, retP,
    inWorld, exec.
  destruct (rememberSettings p); cbn;
    destruct (axios_get out (symbol p) (apiKey p)) as [[series|]|err]; reflexivity.
Qed.

Lemma fetchStockData_theme (out : Outside) (p : Page) :
  theme (snd (fetchStockData out p)) = theme p.
Proof.
  unfold fetchStockData, bindP, execP, try_finallyP, try_catchP, hostP, throwP, retP,
    inWorld, exec.
  destruct (rememberSettings p); cbn;
    destruct (axios_get out (symbol p) (apiKey p)) as [[series|]|err]; reflexivity.
Qed.

Lemma item_or_truthy (store : Storage) (key dflt : string) :
  truthy dflt = true -> truthy (item_or store key dflt) = true.
Proof.
  intros Hd. unfold item_or. destruct (getItem store key) as [value|]; [|exact Hd].
  destruct (String.eqb value "") eqn:E; [exact Hd|]. unfold truthy. now rewrite E.
Qed.

(** Mounting never throws.  The series is fetched at once exactly when the
    preference store holds "true" under "rememberSettings" and a non-empty
    key: the symbol never stands in the way, since it falls back to "AAPL".
    Otherwise the page starts empty; in both cases the theme is stored. *)
Theorem mount_fetches_when_opted_in (out : Outside) (old : Page) :
  let store := localStorage old in
  let fresh := onStorage (setItem "theme" (item_or store "theme" "light"))
                         (initial_page old) in
  let opted :=
    match getItem store "rememberSettings", getItem store "lastApiKey" with
    | Some flag, Some key => String.eqb flag "true" && truthy key
    | _, _ => false
    end in
  fst (mount out old) = Ret tt
  /\ mount out old = (if opted then fetchStockData out fresh else (Ret tt, fresh))
  /\ (opted = false -> data (world (snd (mount out old))) = [])
  /\ getItem (localStorage (snd (mount out old))) "theme"
     = Some (theme (snd (mount out old))).
Proof.
  cbv zeta. unfold mount. cbn [rememberSettings symbol apiKey initial_page onStorage theme].
  rewrite item_or_truthy by reflexivity. rewrite andb_true_r.
  set (fresh := onStorage _ (initial_page old)).
  assert (Hkey : truthy (item_or (localStorage old) "lastApiKey" "") =
                 match getItem (localStorage old) "lastApiKey" with
                 | Some key => truthy key
                 | None => false
                 end).
  { unfold item_or, truthy. destruct (getItem (localStorage old) "lastApiKey") as [key|];
      [|reflexivity]. destruct (String.eqb key "") eqn:E; cbn; now rewrite ?E. }
  rewrite Hkey.
  assert (Hcatch : try_catchP (fetchStockData out) (fun _ => retP tt) fresh
                   = fetchStockData out fresh).
  { unfold try_catchP. pose proof (fetchStockData_returns out fresh) as Hr.
    destruct (fetchStockData out fresh) as [[[]|err] p1]; [reflexivity|discriminate]. }
  rewrite Hcatch.
  assert (Hstore : getItem (localStorage (snd (fetchStockData out fresh))) "theme"
                   = Some (theme fresh)).
  { rewrite fetchStockData_store.
    destruct (rememberSettings fresh); unfold getItem, setItem; cbn;
      now rewrite ?String.eqb_refl. }
  pose proof (fetchStockData_theme out fresh) as Htheme.
  destruct (getItem (localStorage old) "rememberSettings") as [flag|];
    [destruct (String.eqb flag "true")|];
    destruct (getItem (localStorage old) "lastApiKey") as [key|];
    try destruct (truthy key); cbn [andb];
    rewrite ?fetchStockData_returns, ?Hstore, ?Htheme;
    repeat split; intros; try discriminate; try reflexivity;
    unfold getItem, setItem; cbn; now rewrite ?String.eqb_refl.
Qed.

(** ** Mock mode without the engine *)

(** Turning mock mode off, by [disableMockMode] or by its checkbox, does
    not load the engine: while the engine flag is off, training and
    predicting still run the mock implementation. *)
Theorem mock_mode_off_without_engine (env : Env) (H : Z) (w : World) :
  data w <> [] -> tfAvailable w = false ->
  let w1 := world_after disableMockMode w in
  mockMode w1 = false /\ tfAvailable w1 = false
  /\ world_after (toggleMockMode false) w = w1
  /\ trainLSTM env w1 = mockTrain env w1
  /\ predictLSTM env H w1 = mockPredict env H w1.
Proof.
  intros Hdata Htf. cbv zeta. unfold world_after, disableMockMode, toggleMockMode, exec.
  cbn [snd]. split; [reflexivity|]. split; [exact Htf|]. split; [reflexivity|].
  unfold trainLSTM, predictLSTM. cbn [data setMockMode mockMode tfAvailable].
  destruct (data w) as [|p rest] eqn:Ed; [congruence|]. cbn [length Nat.eqb].
  rewrite Htf. now split.
Qed.

Lemma mock_mode_off_without_engine_witness :
  data march_world <> []
  /\ model (world_after (trainLSTM bare_host) (world_after disableMockMode march_world))
     = Some (MockModel 0).
Proof.
  split; [discriminate|].
  destruct (mock_mode_off_without_engine bare_host 5 march_world)
    as (_ & _ & _ & Htrain & _); [discriminate|reflexivity|].
  unfold world_after at 1. rewrite Htrain, mockTrain_world. reflexivity.
Defined.

(** ** Mock prediction on any host *)

Lemma futureDates_length (env : Env) (d : Day) (horizon : Z) :
  length (futureDates env d horizon) = Z.to_nat horizon.
Proof. unfold futureDates. now rewrite !length_map, length_seq. Qed.

Lemma forecast_points_closes (dates : list Day) (closes : list Q) :
  length closes = length dates ->
  map close (forecast_points dates closes) = closes.
Proof. intros H. now apply forecast_points_dates. Qed.

(** Whatever the time zone of the host, [mockPredict] on a non-empty series
    returns normally, shows "Mock predictions generated.", draws one random
    number per step and leaves one point per step of the horizon, step [i]
    priced [P + (sin i + noise) * (P * 0.01)] from the last close [P] with
    a noise in [0, 0.5). *)
Theorem mockPredict_prices_on_any_host (env : Env) (horizon : Z) (w : World) :
  data w <> [] ->
  (forall k, 0 <= Math_random env k < 1)%Q ->
  let P := close (last (data w) (mkPoint 0 0)) in
  let w' := world_after (mockPredict env horizon) w in
  ending (mockPredict env horizon) w = Ret tt
  /\ length (predictions w') = Z.to_nat horizon
  /\ (forall i, 1 <= i <= horizon ->
      exists noise,
        (0 <= noise < 0.5)%Q
        /\ nth_error (map close (predictions w')) (Z.to_nat (i - 1)) =
           Some (P + (Math_sin env (inject_Z i) + noise) * (P * 0.01))%Q)
  /\ randomCalls w' = (randomCalls w + Z.to_nat horizon)%nat
  /\ alerts w' = alerts w ++ ["Mock predictions generated."%string].
Proof.
  intros Hdata Hrandom P w'.
  set (prices := mock_prices env P 1 (randomCalls w) (Z.to_nat horizon)).
  set (dates := futureDates env (date (last (data w) (mkPoint 0 0))) horizon).
  assert (Hrun : mockPredict env horizon w =
                 (Ret tt,
                  alert "Mock predictions generated."
                    (setPredictions (forecast_points dates prices)
                       (with_draws w (randomCalls w + Z.to_nat horizon))))).
  { assert (Hlen : (length (data w) =? 0)%nat = false)
      by (destruct (data w); [congruence|reflexivity]).
    unfold mockPredict. rewrite Hlen. unfold bind, host, exec.
    now rewrite (last_point_last _ (mkPoint 0 0) Hdata), mockPredict_loop_prices. }
  assert (Hmatch : length prices = length dates)
    by (unfold prices, dates; now rewrite mock_prices_length, futureDates_length).
  pose proof (forecast_points_closes _ _ Hmatch) as Hcloses.
  subst w'. unfold world_after, ending. rewrite Hrun. cbn [fst snd].
  cbn [predictions alert setPredictions randomCalls alerts with_draws].
  split; [reflexivity|]. split.
  { rewrite <- (length_map close), Hcloses. apply mock_prices_length. }
  split; [|now split].
  intros i Hi. exists (Math_random env (randomCalls w + Z.to_nat (i - 1)) * 0.5)%Q.
  split; [apply jitter_bounds, Hrandom|].
  rewrite Hcloses. unfold prices. rewrite mock_prices_nth by lia.
  replace (1 + Z.of_nat (Z.to_nat (i - 1))) with i by lia. reflexivity.
Qed.

Lemma mockPredict_prices_on_any_host_witness :
  data march_world <> []
  /\ length (predictions (world_after (mockPredict berlin_host 5) march_world)) = 5%nat.
Proof.
  split; [discriminate|].
  destruct (mockPredict_prices_on_any_host berlin_host 5 march_world)
    as (_ & Hlen & _); [discriminate|exact sample_random_unit|exact Hlen].
Defined.

(** ** The mode selector under every action *)









